(** * PestCare bulk downloader: history store, date filter, sanitisation
      and the two artifact pipelines

    A shallow embedding of [src/database/handler.py] and of the
    synchronisation code of [src/api/client.py].

    - Python [str] is [string]; one [ascii] stands for one code point in
      the range 0..255 (Latin-1), on which [isalnum] and [isspace] are
      tabulated exactly.
    - JSON data (what [response.json()] hands out) is the type [value];
      a Python [dict] is an association list in insertion order.
    - The SQLite file is the record [db]: the rows of [download_history]
      in insertion order, the AUTOINCREMENT counter, and the [clients]
      table as a finite map from the primary key.
    - Exceptions are explicit: a computation returns [result A], either
      [Ok a] or [Raise e].
    - A method of the client is a function on the state (the store, the
      browser handle, the trace of the calls made so far); what lies
      outside the process answers through an [environment]. An [await]
      is the call itself. The workers of the thread pool touch the store
      through one insert each, which SQLite serialises; they are run one
      after the other, in the order in which they complete. *)

From Stdlib Require Import ZArith String Ascii List Lia Bool.
From stdpp Require Import base gmap strings list fin_maps pretty.

Set Warnings "-register-all".

Local Open Scope Z_scope.
Local Open Scope string_scope.

(** ** Exceptions and results *)

Inductive exn : Type :=
| IntegrityError      (* sqlite3.IntegrityError *)
| ValueError
| TypeError
| AttributeError
| KeyError
| RequestException    (* requests.exceptions.RequestException and subclasses *)
| OSError
| BrowserError.       (* anything pyppeteer or the composer raises *)

Global Instance exn_eq_dec : EqDecision exn.
Proof. solve_decision. Defined.

Inductive result (A : Type) : Type :=
| Ok (a : A)
| Raise (e : exn).
Arguments Ok {A} a.
Arguments Raise {A} e.

Global Instance result_ret : MRet result := @Ok.
Global Instance result_bind : MBind result := λ A B f m,
  match m with Ok a => f a | Raise e => Raise e end.

(** ** The history store ([src/database/handler.py]) *)

Module DatabaseHandler.

(** One row of [download_history]. *)
Record history_row : Type := HistoryRow {
  row_id : Z;
  row_filename : string;
  row_category : string;
  row_url : string;
  row_download_date : Z
}.

(** The database file: both tables and the AUTOINCREMENT counter that
    SQLite keeps in [sqlite_sequence]. *)
Record db : Type := Db {
  download_history : list history_row;
  history_seq : Z;
  clients : gmap Z string
}.

(** [CREATE TABLE IF NOT EXISTS]: a missing file gets two empty tables,
    an existing schema is left as it is. *)
Definition create_tables (file : option db) : db :=
  match file with
  | None => Db [] 0 ∅
  | Some d => d
  end.

Record client_record : Type := ClientRecord {
  client_id : Z;
  client_name : string
}.

(** [INSERT OR REPLACE INTO clients], one tuple after the other;
    an empty list returns before the cursor is opened. *)
Definition sync_clients (clients_data : list client_record) (d : db) : db :=
  match clients_data with
  | [] => d
  | _ =>
    Db (download_history d) (history_seq d)
       (fold_left (fun m c => <[client_id c := client_name c]> m)
                  clients_data (clients d))
  end.


(** [WHERE filename = ? AND category = ?] *)
Definition key_matches (f c : string) (r : history_row) : bool :=
  bool_decide (row_filename r = f) && bool_decide (row_category r = c).

Definition is_already_downloaded (f c : string) (d : db) : bool :=
  existsb (key_matches f c) (download_history d).

(** The [INSERT] statement followed by [commit()]: the
    [UNIQUE(filename, category)] constraint rejects a second row with
    the same pair, and the statement then changes nothing. [now] is
    SQLite's CURRENT_TIMESTAMP when the statement runs. *)
Definition insert_download_history (now : Z) (f c u : string) (d : db)
  : result db :=
  if existsb (key_matches f c) (download_history d)
  then Raise IntegrityError
  else Ok (Db (download_history d
                 ++ [HistoryRow (history_seq d + 1) f c u now])
              (history_seq d + 1)
              (clients d)).

(** [try: INSERT; commit  except sqlite3.IntegrityError: pass] *)
Definition add_download_record (now : Z) (f c u : string) (d : db)
  : result db :=
  match insert_download_history now f c u d with
  | Ok d' => Ok d'
  | Raise IntegrityError => Ok d
  | Raise e => Raise e
  end.

(** [DELETE FROM download_history]; the counter in [sqlite_sequence]
    is not reset by a DELETE. *)
Definition clear_history (d : db) : db :=
  Db [] (history_seq d) (clients d).

(** The number of rows stored under a key. *)
Definition records_for (f c : string) (d : db) : nat :=
  length (filter (fun r => key_matches f c r = true) (download_history d)).

(** The calls a caller can make on the handler, and a run of them in
    the order in which SQLite serialises their transactions. *)
Inductive op : Type :=
| OpCreateTables
| OpSyncClients (clients_data : list client_record)
| OpGetClientName (cid : Z)
| OpIsAlreadyDownloaded (f c : string)
| OpAddDownloadRecord (now : Z) (f c u : string)
| OpClearHistory.

Definition run_op (o : op) (d : db) : result db :=
  match o with
  | OpCreateTables => Ok (create_tables (Some d))
  | OpSyncClients l => Ok (sync_clients l d)
  | OpGetClientName _ => Ok d
  | OpIsAlreadyDownloaded _ _ => Ok d
  | OpAddDownloadRecord now f c u => add_download_record now f c u d
  | OpClearHistory => Ok (clear_history d)
  end.

Fixpoint run_ops (os : list op) (d : db) : result db :=
  match os with
  | [] => Ok d
  | o :: os' =>
    match run_op o d with
    | Ok d' => run_ops os' d'
    | Raise e => Raise e
    end
  end.


(** The schema invariant: no two rows share (filename, category). *)
Definition unique_keys (d : db) : Prop :=
  ∀ f c, (records_for f c d ≤ 1)%nat.

End DatabaseHandler.

(** ** Python data *)

Module Py.

(** What [response.json()] returns. JSON numbers are integers here. *)
Inductive value : Type :=
| VNone
| VBool (b : bool)
| VInt (z : Z)
| VStr (s : string)
| VList (l : list value)
| VDict (d : list (string * value)).

(** A [dict] with string keys, in insertion order, keys distinct. *)
Definition dict : Type := list (string * value).

(** [d.get(k)] as an option, [d.get(k)] and [d.get(k, dflt)]. *)
Fixpoint lookup_key (k : string) (d : dict) : option value :=
  match d with
  | [] => None
  | (k', v) :: d' => if decide (k' = k) then Some v else lookup_key k d'
  end.

Definition get (k : string) (d : dict) : value :=
  match lookup_key k d with Some v => v | None => VNone end.

Definition get_default (k : string) (dflt : value) (d : dict) : value :=
  match lookup_key k d with Some v => v | None => dflt end.

(** [d[k] = v]: an existing key keeps its position, a new one is
    appended. *)
Fixpoint setitem (k : string) (v : value) (d : dict) : dict :=
  match d with
  | [] => [(k, v)]
  | (k', v') :: d' =>
    if decide (k' = k) then (k, v) :: d' else (k', v') :: setitem k v d'
  end.

(** Truth value of an object ([if not x]). *)
Definition truthy (v : value) : bool :=
  match v with
  | VNone => false
  | VBool b => b
  | VInt z => negb (Z.eqb z 0)
  | VStr s => negb (bool_decide (s = ""))
  | VList l => negb (bool_decide (l = []))
  | VDict d => negb (bool_decide (d = []))
  end.

(** [isinstance(v, list)] *)
Definition is_list (v : value) : bool :=
  match v with VList _ => true | _ => false end.

(** [x or y] *)
Definition or_else (x y : value) : value := if truthy x then x else y.

(** Attribute access [v.get]: only a dict has it. *)
Definition as_dict (v : value) : result dict :=
  match v with VDict d => Ok d | _ => Raise AttributeError end.

(** *** Characters *)

Definition code (a : ascii) : Z := Z.of_N (N_of_ascii a).

Definition in_range (lo hi : Z) (a : ascii) : bool :=
  Z.leb lo (code a) && Z.leb (code a) hi.

(** [str.isalnum] on one code point below 256: the decimal digits, the
    letters, and the Latin-1 letters and numeric signs. *)
Definition isalnum (a : ascii) : bool :=
  in_range 48 57 a || in_range 65 90 a || in_range 97 122 a
  || in_range 170 170 a || in_range 178 179 a || in_range 181 181 a
  || in_range 185 186 a || in_range 188 190 a
  || in_range 192 214 a || in_range 216 246 a || in_range 248 255 a.

(** [str.isspace] on one code point below 256. *)
Definition isspace (a : ascii) : bool :=
  in_range 9 13 a || in_range 28 32 a
  || in_range 133 133 a || in_range 160 160 a.

(** [s.isalnum()]: non-empty and every character alphanumeric. *)
Definition str_isalnum (s : string) : bool :=
  negb (bool_decide (s = "")) && forallb isalnum (list_ascii_of_string s).

(** [s.rstrip()] *)
Fixpoint rstrip (s : string) : string :=
  match s with
  | EmptyString => EmptyString
  | String a s' =>
    match rstrip s' with
    | EmptyString => if isspace a then EmptyString else String a EmptyString
    | t => String a t
    end
  end.

(** [s.replace(old, new)] for one-character [old] and [new]. *)
Fixpoint replace_char (old new : ascii) (s : string) : string :=
  match s with
  | EmptyString => EmptyString
  | String a s' =>
    String (if decide (a = old) then new else a) (replace_char old new s')
  end.

(** [for c in v]: the elements an iteration yields. *)
Definition iterate (v : value) : result (list value) :=
  match v with
  | VStr s => Ok (map (fun a => VStr (String a EmptyString))
                      (list_ascii_of_string s))
  | VList l => Ok l
  | VDict d => Ok (map (fun kv => VStr (fst kv)) d)
  | VNone | VBool _ | VInt _ => Raise TypeError
  end.

(** *** [posixpath.join] *)

Definition starts_with_sep (s : string) : bool :=
  match s with String "/" _ => true | _ => false end.

Fixpoint ends_with_sep (s : string) : bool :=
  match s with
  | EmptyString => false
  | String a EmptyString => bool_decide (a = "/"%char)
  | String _ s' => ends_with_sep s'
  end.

Definition join2 (path b : string) : string :=
  if starts_with_sep b then b
  else if bool_decide (path = "") || ends_with_sep path then path ++ b
  else path ++ "/" ++ b.

Definition os_path_join (a : string) (p : list string) : string :=
  fold_left join2 p a.

End Py.

(** ** Calendar dates and [datetime.strptime(s, '%Y-%m-%d').date()] *)

Module Date.
Import Py.

Record date : Type := MkDate { year : Z; month : Z; day : Z }.

Definition is_leap (y : Z) : bool :=
  Z.eqb (y mod 4) 0 && (negb (Z.eqb (y mod 100) 0) || Z.eqb (y mod 400) 0).

Definition days_in_month (y m : Z) : Z :=
  if Z.eqb m 2 then (if is_leap y then 29 else 28)
  else if Z.eqb m 4 || Z.eqb m 6 || Z.eqb m 9 || Z.eqb m 11 then 30
  else 31.

(** A date object exists only for a real calendar day. *)
Definition valid (d : date) : bool :=
  Z.leb 1 (year d) && Z.leb (year d) 9999
  && Z.leb 1 (month d) && Z.leb (month d) 12
  && Z.leb 1 (day d) && Z.leb (day d) (days_in_month (year d) (month d)).

(** Comparison of [date] objects: by (year, month, day). *)
Definition date_le (a b : date) : bool :=
  Z.ltb (year a) (year b)
  || (Z.eqb (year a) (year b)
      && (Z.ltb (month a) (month b)
          || (Z.eqb (month a) (month b) && Z.leb (day a) (day b)))).

(** [date.toordinal()]: the day number, 0001-01-01 being day 1. *)
Definition days_before_year (y : Z) : Z :=
  (y - 1) * 365 + (y - 1) / 4 - (y - 1) / 100 + (y - 1) / 400.

Definition days_before_month (y m : Z) : Z :=
  nth (Z.to_nat (m - 1))
      [0; 31; 59; 90; 120; 151; 181; 212; 243; 273; 304; 334] 0
  + (if Z.ltb 2 m && is_leap y then 1 else 0).

Definition toordinal (d : date) : Z :=
  days_before_year (year d) + days_before_month (year d) (month d) + day d.

(** *** The regular expression of the format ['%Y-%m-%d'] *)

Definition digit_in (lo hi : Z) (a : ascii) : option Z :=
  if in_range (48 + lo) (48 + hi) a then Some (code a - 48) else None.

(** [%Y] is [\d\d\d\d]. *)
Definition match_Y (cs : list ascii) : list (Z * list ascii) :=
  match cs with
  | a :: b :: c :: d :: r =>
    match digit_in 0 9 a, digit_in 0 9 b, digit_in 0 9 c, digit_in 0 9 d with
    | Some x, Some y, Some z, Some w =>
      [(x * 1000 + y * 100 + z * 10 + w, r)]
    | _, _, _, _ => []
    end
  | _ => []
  end.

(** One alternative of two characters, one of one character; the
    value is [int] of the matched text, in which a leading blank
    counts for nothing. *)
Definition two (p : ascii → bool) (lo hi : Z) (cs : list ascii)
  : list (Z * list ascii) :=
  match cs with
  | a :: b :: r =>
    match digit_in lo hi b with
    | Some y => if p a then [((if isspace a then 0 else code a - 48) * 10 + y, r)]
                else []
    | None => []
    end
  | _ => []
  end.

Definition one (lo hi : Z) (cs : list ascii) : list (Z * list ascii) :=
  match cs with
  | a :: r =>
    match digit_in lo hi a with Some x => [(x, r)] | None => [] end
  | _ => []
  end.

Definition is_char (c : ascii) (a : ascii) : bool := bool_decide (a = c).

(** [%m] is [1[0-2]|0[1-9]|[1-9]], alternatives in priority order. *)
Definition match_m (cs : list ascii) : list (Z * list ascii) :=
  two (is_char "1") 0 2 cs ++ two (is_char "0") 1 9 cs ++ one 1 9 cs.

(** [%d] is [3[0-1]|[1-2]\d|0[1-9]|[1-9]| [1-9]]. *)
Definition match_d (cs : list ascii) : list (Z * list ascii) :=
  two (is_char "3") 0 1 cs ++ two (in_range 49 50) 0 9 cs
  ++ two (is_char "0") 1 9 cs ++ one 1 9 cs ++ two (is_char " ") 1 9 cs.

Definition match_dash (cs : list ascii) : list (list ascii) :=
  match cs with
  | a :: r => if is_char "-" a then [r] else []
  | [] => []
  end.

(** All matches at the start of the string, the first one being the
    one the backtracking engine reports: fields and the unconverted
    rest. *)
Definition regex_matches (cs : list ascii) : list (date * list ascii) :=
  '(y, r1) ← match_Y cs;
  r2 ← match_dash r1;
  '(m, r3) ← match_m r2;
  r4 ← match_dash r3;
  '(d, r5) ← match_d r4;
  [(MkDate y m d, r5)].

(** [ValueError] when the string does not match, when data remains
    after the match, or when the day does not exist. *)
Definition parse (s : string) : result date :=
  match regex_matches (list_ascii_of_string s) with
  | [] => Raise ValueError
  | (d, rest) :: _ =>
    match rest with
    | [] => if valid d then Ok d else Raise ValueError
    | _ :: _ => Raise ValueError
    end
  end.

(** A first argument that is not a [str] is a [TypeError]. *)
Definition strptime_date (v : value) : result date :=
  match v with
  | VStr s => parse s
  | _ => Raise TypeError
  end.

End Date.

(** ** The client ([src/api/client.py]): pure parts *)

Module PestCareClient.
Import Py Date DatabaseHandler.

(** *** [_sanitize_report_data] *)

Definition list_keys : list string :=
  ["report_detail_feedbacks"; "report_detail_treatments";
   "report_detail_chemicals"; "report_detail_type_works";
   "uploaded_files"].

Definition _sanitize_report_data (report : dict) : dict :=
  fold_left
    (fun report key =>
       if is_list (get key report) then report
       else setitem key (VList []) report)
    list_keys report.

(** *** [_filter_reports_by_date] *)

(** The loop; [filtered] is the list built so far. *)
Fixpoint filter_loop (start_date end_date : date)
    (reports filtered : list value) : result (list value) :=
  match reports with
  | [] => Ok filtered
  | report :: rest =>
    match (d ← as_dict report; strptime_date (get "date_work" d)) with
    | Ok report_date =>
      if date_le start_date report_date && date_le report_date end_date
      then filter_loop start_date end_date rest (filtered ++ [report])
      else filter_loop start_date end_date rest filtered
    | Raise ValueError | Raise TypeError =>
      filter_loop start_date end_date rest filtered
    | Raise e => Raise e
    end
  end.

Definition _filter_reports_by_date (reports : value)
    (start_date_str end_date_str : string) : result (list value) :=
  start_date ← strptime_date (VStr start_date_str);
  end_date ← strptime_date (VStr end_date_str);
  reports ← iterate reports;
  filter_loop start_date end_date reports [].

(** *** The category path, as written at each of its three sites *)

(** [c.isalnum() or c in (' ', '_')] for an element of the iteration;
    only a [str] has [isalnum]. *)
Definition keeps (c : value) : result bool :=
  match c with
  | VStr s =>
    Ok (str_isalnum s || bool_decide (s = " ") || bool_decide (s = "_"))
  | _ => Raise AttributeError
  end.

(** ["".join(c for c in ... if ...)] over the elements an iteration
    yields. *)
Fixpoint join_kept (cs : list value) : result string :=
  match cs with
  | [] => Ok ""
  | c :: cs' =>
    k ← keeps c;
    rest ← join_kept cs';
    Ok (match c with VStr s => if (k : bool) then s else "" | _ => "" end
        ++ rest)
  end.

(** What the image scan puts in [files_to_download]. *)
Record file_info : Type := FileInfo {
  fi_url : string;
  fi_filename : string;
  fi_technician_name : value;
  fi_client_name : string
}.

(** Line 213, in [_process_images_for_reports]. *)
Definition category_at_enqueue (technician_name : value)
    (client_name : string) : result string :=
  tech_chars ← iterate technician_name;
  tech ← join_kept tech_chars;
  client_chars ← iterate (VStr client_name);
  client ← join_kept client_chars;
  Ok (os_path_join (rstrip tech) [rstrip client; "Foto"]).

(** Lines 231-233, in [_download_image_worker]. *)
Definition category_at_worker (file_info : file_info) : result string :=
  tech_chars ← iterate (fi_technician_name file_info);
  tech ← join_kept tech_chars;
  let sane_tech := rstrip tech in
  client_chars ← iterate (VStr (fi_client_name file_info));
  client ← join_kept client_chars;
  let sane_client := rstrip client in
  Ok (os_path_join sane_tech [sane_client; "Foto"]).

(** Line 264, in [_process_pdfs_for_reports]. *)
Definition category_at_pdf (technician_name : value)
    (client_name : string) : result string :=
  tech_chars ← iterate technician_name;
  tech ← join_kept tech_chars;
  client_chars ← iterate (VStr client_name);
  client ← join_kept client_chars;
  Ok (os_path_join (rstrip tech) [rstrip client; "STS Reports"]).

(** *** The world outside the process *)

Inductive http_method : Type := GET | POST | OtherMethod.

(** How far one streamed download got. *)
Inductive download_outcome : Type :=
| ConnectFailed   (* session.get or raise_for_status: RequestException *)
| OpenFailed      (* open(file_path, 'wb'): OSError, no file *)
| StreamFailed    (* iter_content: RequestException, file partial *)
| WriteFailed     (* f.write: OSError, file partial *)
| Streamed.       (* every chunk written and the file closed *)

(** The calls that leave the process, in the order they are made. *)
Inductive event : Type :=
| EvLog (line : string)
| EvRequest (method : http_method) (endpoint : string) (payload : value)
| EvLaunch (executable_path : string)
| EvMakedirs (path : string)
| EvDownload (url file_path : string) (outcome : download_outcome)
| EvCompose (report : dict)
| EvNewPage
| EvSetContent (source_html : string)
| EvPdf (full_file_path : string)
| EvPageClose.

(** The answers of the outside world; each may depend on everything
    that happened before. *)
Record environment : Type := Environment {
  (* session.get / session.post, raise_for_status and response.json() *)
  http_json : list event → http_method → string → value → result value;
  (* os.path.exists *)
  path_exists : list event → string → bool;
  (* the three chrome.exe paths built from os.environ *)
  chrome_candidates : list string;
  (* pyppeteer.launcher.executablePath() *)
  pyppeteer_executable : list event → result string;
  (* pyppeteer.launch *)
  launch : list event → string → result unit;
  (* self.browser.connected *)
  browser_connected : list event → bool;
  (* os.makedirs(path, exist_ok=True) *)
  makedirs : list event → string → result unit;
  (* the streamed GET of one image into file_path *)
  download : list event → string → string → download_outcome;
  (* generate_html_report(report, client_full_info, session) *)
  generate_html_report : list event → dict → value → value → result string;
  (* browser.newPage, page.setContent, page.pdf, page.close *)
  new_page : list event → result unit;
  set_content : list event → string → result unit;
  pdf : list event → string → result unit;
  page_close : list event → result unit;
  (* CURRENT_TIMESTAMP *)
  clock : list event → Z;
  (* str() of a list or dict *)
  repr : value → string;
  (* os.path.splitext(urlparse(url).path)[1] *)
  path_ext : string → string;
  (* the order in which as_completed hands out the futures *)
  completion_order : list file_info → list file_info
}.

(** The client object together with the database file and the trace. *)
Record state : Type := State {
  st_db : db;
  st_trace : list event;
  st_browser : bool;              (* self.browser is not None *)
  st_chrome_path : string;
  st_auth_token : option string;
  st_account_info : value
}.

Definition with_db (d : db) (s : state) : state :=
  State d (st_trace s) (st_browser s) (st_chrome_path s)
        (st_auth_token s) (st_account_info s).
Definition with_trace (t : list event) (s : state) : state :=
  State (st_db s) t (st_browser s) (st_chrome_path s)
        (st_auth_token s) (st_account_info s).
Definition with_browser (b : bool) (s : state) : state :=
  State (st_db s) (st_trace s) b (st_chrome_path s)
        (st_auth_token s) (st_account_info s).

(** A method of the client: it may raise, and what it did before
    raising stays done. *)
Definition M (A : Type) : Type := state → result A * state.

Global Instance M_ret : MRet M := λ A a s, (Ok a, s).
Global Instance M_bind : MBind M := λ A B f m s,
  match m s with
  | (Ok a, s') => f a s'
  | (Raise e, s') => (Raise e, s')
  end.

Definition lift {A} (r : result A) : M A := λ s, (r, s).
Definition gets {A} (f : state → A) : M A := λ s, (Ok (f s), s).
Definition emit (e : event) : M unit :=
  λ s, (Ok tt, with_trace (st_trace s ++ [e]) s).
Definition log_callback (line : string) : M unit := emit (EvLog line).

(** [try: body except <the exceptions handler accepts>: ...] *)
Definition try_except {A} (body : M A) (handler : exn → option (M A))
  : M A := λ s,
  match body s with
  | (Ok a, s') => (Ok a, s')
  | (Raise e, s') =>
    match handler e with
    | Some h => h s'
    | None => (Raise e, s')
    end
  end.

(** [for x in xs: acc = body(acc, x)] *)
Fixpoint for_each {A B} (body : B → A → M B) (xs : list A) (acc : B)
  : M B :=
  match xs with
  | [] => mret acc
  | x :: xs' => acc' ← body acc x; for_each body xs' acc'
  end.

(** [str(e)] in a log line; the model prints the class of the
    exception. *)
Definition exn_text (e : exn) : string :=
  match e with
  | IntegrityError => "IntegrityError"
  | ValueError => "ValueError"
  | TypeError => "TypeError"
  | AttributeError => "AttributeError"
  | KeyError => "KeyError"
  | RequestException => "RequestException"
  | OSError => "OSError"
  | BrowserError => "BrowserError"
  end.

(** *** The methods *)

Section Methods.
Variable env : environment.

(** [str(v)], as an f-string formats a value. *)
Definition py_str (v : value) : string :=
  match v with
  | VNone => "None"
  | VBool true => "True"
  | VBool false => "False"
  | VInt z => pretty z
  | VStr s => s
  | VList _ | VDict _ => repr env v
  end.

Definition db_is_already_downloaded (filename category : string)
  : M bool :=
  gets (λ s, is_already_downloaded filename category (st_db s)).

Definition db_add_download_record (filename category url : string)
  : M unit := λ s,
  match add_download_record (clock env (st_trace s))
                            filename category url (st_db s) with
  | Ok d => (Ok tt, with_db d s)
  | Raise e => (Raise e, s)
  end.

Definition os_makedirs (path : string) : M unit :=
  r ← gets (λ s, makedirs env (st_trace s) path);
  _ ← emit (EvMakedirs path);
  lift r.

Definition _fetch_api_data (endpoint : string) (params : value)
    (method : http_method) (json_payload : value) : M value :=
  match method with
  | OtherMethod => mret VNone
  | _ =>
    let sent := match method with GET => params | _ => json_payload end in
    try_except
      (r ← gets (λ s, http_json env (st_trace s) method endpoint sent);
       _ ← emit (EvRequest method endpoint sent);
       data ← lift r;
       d ← lift (as_dict data);
       mret (or_else (get "body" d) (get "data" d)))
      (λ e, match e with
            | RequestException | ValueError => Some (mret VNone)
            | _ => None
            end)
  end.

(** [(client['id'], client['name'])] for one element of the list. *)
Definition client_tuple (c : value) : result (value * value) :=
  match c with
  | VDict d =>
    match lookup_key "id" d, lookup_key "name" d with
    | Some i, Some n => Ok (i, n)
    | _, _ => Raise KeyError
    end
  | _ => Raise TypeError
  end.

Fixpoint client_tuples (cs : list value) : result (list (value * value)) :=
  match cs with
  | [] => Ok []
  | c :: cs' =>
    t ← client_tuple c;
    ts ← client_tuples cs';
    Ok (t :: ts)
  end.

(** Binding a tuple to the columns (INTEGER PRIMARY KEY, TEXT NOT
    NULL). A client object follows the schema {id: integer, name:
    string}; a value of another type is reported here as an
    [IntegrityError], although SQLite would coerce some of them. *)
Definition bind_client (t : value * value) : result client_record :=
  match t with
  | (VInt i, VStr n) => Ok (ClientRecord i n)
  | _ => Raise IntegrityError
  end.

Fixpoint client_records (ts : list (value * value))
  : result (list client_record) :=
  match ts with
  | [] => Ok []
  | t :: ts' =>
    r ← bind_client t;
    rs ← client_records ts';
    Ok (r :: rs)
  end.

(** [{c['id']: c for c in clients}] *)
Fixpoint set_client (c : client_record) (d : list (Z * client_record))
  : list (Z * client_record) :=
  match d with
  | [] => [(client_id c, c)]
  | (k, c') :: d' =>
    if decide (k = client_id c) then (k, c) :: d'
    else (k, c') :: set_client c d'
  end.

Definition clients_dict (cs : list client_record)
  : list (Z * client_record) :=
  fold_left (λ d c, set_client c d) cs [].

Definition _sync_clients : M (list (Z * client_record)) :=
  info ← gets st_account_info;
  account ← lift (as_dict info);
  let branch_id := get "employee_branch_id" account in
  clients ← _fetch_api_data "/web/api/client/no-paging"
              (VDict [("branch_id", branch_id)]) GET VNone;
  if truthy clients then
    elements ← lift (iterate clients);
    tuples ← lift (client_tuples elements);
    records ← lift (client_records tuples);
    _ ← (λ s, (Ok tt, with_db (sync_clients records (st_db s)) s));
    _ ← log_callback ("Successfully synced "
                      ++ pretty (length elements) ++ " clients.");
    mret (clients_dict records)
  else
    _ ← log_callback "Warning: Could not fetch or sync client list.";
    mret [].

Definition _find_chrome_executable : M (option string) :=
  gets (λ s, List.find (path_exists env (st_trace s))
                       (chrome_candidates env)).

Definition falsy_path (p : option string) : bool :=
  match p with
  | None => true
  | Some q => bool_decide (q = "")
  end.

(** Returns whether a browser object comes back ([true]) or [None]. *)
Definition _get_browser : M bool :=
  held ← gets st_browser;
  connected ← gets (λ s, browser_connected env (st_trace s));
  if negb held || negb connected then
    _ ← log_callback "Initializing headless browser for PDF generation...";
    chrome_path ← gets st_chrome_path;
    present ← gets (λ s, path_exists env (st_trace s) chrome_path);
    executable_path ←
      (if bool_decide (chrome_path = "") || negb present then
         _ ← log_callback
           " - User-defined Chrome path not found or not set. Trying to auto-detect...";
         _find_chrome_executable
       else mret (Some chrome_path));
    found ←
      (if falsy_path executable_path then
         _ ← log_callback
           " - Could not auto-detect Chrome. Falling back to pyppeteer's default (may download Chromium).";
         r ← gets (λ s, pyppeteer_executable env (st_trace s));
         match r with
         | Ok p => mret (Some p)
         | Raise e =>
           _ ← log_callback
             ("FATAL: Failed to download or find Chromium. Error: "
              ++ exn_text e);
           mret None
         end
       else mret executable_path);
    match found with
    | None => mret false
    | Some path =>
      _ ← log_callback (" - Using browser from: " ++ path);
      r ← gets (λ s, launch env (st_trace s) path);
      _ ← emit (EvLaunch path);
      match r with
      | Ok _ =>
        _ ← (λ s, (Ok tt, with_browser true s));
        _ ← log_callback " - Browser initialized successfully.";
        gets st_browser
      | Raise e =>
        _ ← log_callback
          ("FATAL: Could not launch browser. PDFs cannot be generated. Error: "
           ++ exn_text e);
        _ ← log_callback
          "TIP: Please ensure Google Chrome is installed and the path is set correctly in 'Browser Settings...'";
        _ ← (λ s, (Ok tt, with_browser false s));
        gets st_browser
      end
    end
  else gets st_browser.

(** **** The image pipeline *)

Definition _download_image_worker (file_info : file_info)
    (download_folder : string) : M (bool * string) :=
  category ← lift (category_at_worker file_info);
  let download_path := os_path_join download_folder [category] in
  _ ← os_makedirs download_path;
  let file_path := os_path_join download_path [fi_filename file_info] in
  try_except
    (outcome ← gets (λ s, download env (st_trace s)
                            (fi_url file_info) file_path);
     _ ← emit (EvDownload (fi_url file_info) file_path outcome);
     match outcome with
     | ConnectFailed | StreamFailed => lift (Raise RequestException)
     | OpenFailed | WriteFailed => lift (Raise OSError)
     | Streamed =>
       _ ← db_add_download_record (fi_filename file_info) category
                                  (fi_url file_info);
       mret (true, fi_filename file_info)
     end)
    (λ e, match e with
          | RequestException => Some (mret (false, fi_filename file_info))
          | _ => None
          end).

(** One future taken from [as_completed]: the worker's run and the
    handling of its result. *)
Definition collect (output_folder : string) (count : Z)
    (f_info : file_info) : M Z :=
  try_except
    ('(success, fname) ← _download_image_worker f_info output_folder;
     if (success : bool) then
       _ ← log_callback ("      -> SUCCESS (Image): " ++ fname);
       mret (count + 1)
     else
       _ ← log_callback ("      -> FAILED (Image): " ++ fname);
       mret count)
    (λ exc, Some (
       _ ← log_callback ("      -> ERROR downloading "
                         ++ fi_filename f_info ++ ": " ++ exn_text exc);
       mret count)).

(** The workers touch the store through one insert each, which
    SQLite serialises; the pool is run one future after the other in
    completion order. *)
Definition run_pool (output_folder : string) (futures : list file_info)
  : M Z :=
  for_each (collect output_folder) futures 0.

Definition scan_file (schedule_id technician_name : value)
    (client_name : string) (files_to_download : list file_info)
    (file_data : value) : M (list file_info) :=
  fd ← lift (as_dict file_data);
  let file_url := get "filename" fd in
  let file_id := get "id" fd in
  if negb (truthy file_url) || negb (truthy file_id)
  then mret files_to_download
  else
    url ← lift (match file_url with
                | VStr u => Ok u
                | _ => Raise AttributeError   (* urlparse of a non-str *)
                end);
    let ext := if bool_decide (path_ext env url = "") then ".jpg"
               else path_ext env url in
    let filename := "ReportImage_" ++ py_str schedule_id ++ "_"
                    ++ py_str file_id ++ ext in
    category ← lift (category_at_enqueue technician_name client_name);
    seen ← db_is_already_downloaded filename category;
    if negb seen
    then mret (files_to_download
                 ++ [FileInfo url filename technician_name client_name])%list
    else mret files_to_download.

Definition scan_report (client_name : string)
    (files_to_download : list file_info) (report : value)
  : M (list file_info) :=
  r ← lift (as_dict report);
  let schedule_id := get "schedule_id" r in
  let technician_name :=
    get_default "employee_name" (VStr "Unknown_Technician") r in
  if negb (truthy schedule_id) then mret files_to_download
  else
    let payload :=
      VDict [("schedule_id", schedule_id); ("type", VStr "sts")] in
    uploaded_files ← _fetch_api_data "/web/api/schedule/file-uploaded"
                       VNone POST payload;
    if negb (truthy uploaded_files) then mret files_to_download
    else
      file_datas ← lift (iterate uploaded_files);
      for_each (scan_file schedule_id technician_name client_name)
               file_datas files_to_download.

Definition _process_images_for_reports (reports : list value)
    (client_name output_folder : string) (max_workers : Z) : M Z :=
  files_to_download ← for_each (scan_report client_name) reports [];
  match files_to_download with
  | [] => mret 0
  | _ :: _ =>
    _ ← log_callback ("    - Found " ++ pretty (length files_to_download)
                      ++ " new images. Starting parallel download...");
    (* ThreadPoolExecutor(max_workers=...) *)
    if Z.leb max_workers 0 then lift (Raise ValueError)
    else run_pool output_folder (completion_order env files_to_download)
  end.

(** **** The PDF pipeline *)

(** The body of the [try:] for one report. *)
Definition render (report : dict) (client_address branch_name : value)
    (schedule_id : value) (filename category full_file_path : string)
    (count : Z) : M Z :=
  r ← gets (λ s, generate_html_report env (st_trace s) report
                   client_address branch_name);
  _ ← emit (EvCompose report);
  source_html ← lift r;
  held ← gets st_browser;
  (* self.browser.newPage(): None has no such attribute *)
  _ ← (if (held : bool) then mret tt else lift (Raise AttributeError));
  r ← gets (λ s, new_page env (st_trace s));
  _ ← emit EvNewPage;
  _ ← lift r;
  r ← gets (λ s, set_content env (st_trace s) source_html);
  _ ← emit (EvSetContent source_html);
  _ ← lift r;
  r ← gets (λ s, pdf env (st_trace s) full_file_path);
  _ ← emit (EvPdf full_file_path);
  _ ← lift r;
  r ← gets (λ s, page_close env (st_trace s));
  _ ← emit EvPageClose;
  _ ← lift r;
  _ ← db_add_download_record filename category
         ("api_generated_" ++ py_str schedule_id);
  _ ← log_callback ("      -> SUCCESS (PDF): " ++ filename);
  mret (count + 1).

(** [f"STS_Report_{client_name.replace('/', '_')}_{report_date}_{schedule_id}.pdf"] *)
Definition pdf_filename (client_name : string) (report_date schedule_id : value)
  : string :=
  "STS_Report_" ++ replace_char "/" "_" client_name ++ "_"
  ++ py_str report_date ++ "_" ++ py_str schedule_id ++ ".pdf".

(** One turn of the loop over the reports. *)
Definition pdf_step (client_address branch_name : value)
    (client_name output_folder : string) (count : Z) (report : value)
  : M Z :=
  r ← lift (as_dict report);
  let report := _sanitize_report_data r in
  let schedule_id := get "schedule_id" report in
  let technician_name :=
    get_default "employee_name" (VStr "Unknown_Technician") report in
  if negb (truthy schedule_id) then mret count
  else
    let payload :=
      VDict [("schedule_id", schedule_id); ("type", VStr "sts")] in
    uploaded ← _fetch_api_data "/web/api/schedule/file-uploaded"
                 VNone POST payload;
    let report :=
      setitem "uploaded_files" (or_else uploaded (VList [])) report in
    let report_date := get_default "date_work" (VStr "nodate") report in
    let filename := pdf_filename client_name report_date schedule_id in
    category ← lift (category_at_pdf technician_name client_name);
    seen ← db_is_already_downloaded filename category;
    if (seen : bool) then mret count
    else
      _ ← log_callback ("    - Generating PDF for schedule "
                        ++ py_str schedule_id ++ "...");
      let pdf_path := os_path_join output_folder [category] in
      _ ← os_makedirs pdf_path;
      let full_file_path := os_path_join pdf_path [filename] in
      try_except
        (render report client_address branch_name schedule_id
                filename category full_file_path count)
        (λ e, Some (
           _ ← log_callback
             ("      -> FAILED (PDF): Exception during PDF generation for schedule "
              ++ py_str schedule_id ++ ". Reason: " ++ exn_text e);
           mret count)).

Definition _process_pdfs_for_reports (reports : list value)
    (full_contract_data : value) (client_name output_folder : string)
  : M Z :=
  contract_info ← lift (
    if truthy full_contract_data
    then d ← as_dict full_contract_data;
         Ok (get_default "contract" (VDict []) d)
    else Ok (VDict []));
  info ← lift (as_dict contract_info);
  let client_info_details := get_default "clients" (VDict []) info in
  branches ← lift (as_dict (get_default "branches" (VDict []) info));
  let branch_name := get_default "name" (VStr "N/A") branches in
  details ← lift (as_dict client_info_details);
  let client_address := get_default "address" (VStr "N/A") details in
  for_each (pdf_step client_address branch_name client_name output_folder)
           reports 0.

(** **** The orchestrator *)

Definition newline : string := String "010"%char EmptyString.

Section Run.
Variables (max_workers : Z) (output_folder start_date end_date : string)
          (selected_tech_ids : value).

(** One turn of the loop over the contracts; [totals] is
    [(total_images, total_pdfs)]. *)
Definition process_contract (client_name : string)
    (download_pdfs download_images : bool)
    (totals : Z * Z) (contract : value) : M (Z * Z) :=
  c ← lift (as_dict contract);
  let contract_id := get "id" c in
  if negb (truthy contract_id) then mret totals
  else
    let check_report_payload := VDict [("contract_id", contract_id)] in
    full_contract_data ←
      _fetch_api_data "/web/api/report/check-report-service"
                      VNone POST check_report_payload;
    let sts_payload :=
      VDict [("contract_id", contract_id);
             ("employee_ids", selected_tech_ids)] in
    sts_reports ← _fetch_api_data "/web/api/report/form-sts"
                    VNone POST sts_payload;
    if negb (truthy sts_reports) then mret totals
    else
      reports_in_range ←
        lift (_filter_reports_by_date sts_reports start_date end_date);
      match reports_in_range with
      | [] => mret totals
      | _ :: _ =>
        _ ← log_callback
          ("  - Found " ++ pretty (length reports_in_range)
           ++ " STS report(s) in date range for Contract ID "
           ++ py_str contract_id ++ ".");
        total_images ←
          (if (download_images : bool) then
             img_count ← _process_images_for_reports reports_in_range
                           client_name output_folder max_workers;
             mret (fst totals + img_count)
           else mret (fst totals));
        total_pdfs ←
          (if (download_pdfs : bool) then
             pdf_count ← _process_pdfs_for_reports reports_in_range
                           full_contract_data client_name output_folder;
             mret (snd totals + pdf_count)
           else mret (snd totals));
        mret (total_images, total_pdfs)
      end.

(** One turn of the loop over [clients_dict.items()]; [acc] is the
    index [i] of [enumerate] and the totals. *)
Definition process_client (n : nat) (download_pdfs download_images : bool)
    (acc : nat * (Z * Z)) (item : Z * client_record)
  : M (nat * (Z * Z)) :=
  let i := fst acc in
  let totals := snd acc in
  let client_id := fst item in
  let client_name := client_name (snd item) in
  _ ← log_callback (newline ++ "[" ++ pretty (S i) ++ "/" ++ pretty n
                    ++ "] Processing Client: " ++ client_name);
  contracts ← _fetch_api_data
                ("/web/api/contract/" ++ pretty client_id ++ "/client")
                (VDict [("is_void", VStr "yes")]) GET VNone;
  if negb (truthy contracts) then
    _ ← log_callback "  - No contracts found.";
    mret (S i, totals)
  else
    cs ← lift (iterate contracts);
    totals' ← for_each (process_contract client_name
                          download_pdfs download_images) cs totals;
    mret (S i, totals').

(** The loop over the clients, returning the two counters. *)
Definition sync_loop (clients_dict : list (Z * client_record))
    (download_pdfs download_images : bool) : M (Z * Z) :=
  acc ← for_each (process_client (length clients_dict)
                    download_pdfs download_images)
                 clients_dict (0%nat, (0, 0));
  mret (snd acc).

(** The lines after the loop. *)
Definition summary (download_pdfs download_images : bool)
    (totals : Z * Z) : M unit :=
  _ ← log_callback
        (newline ++ "-------------------------------------------");
  _ ← log_callback "Smart Sync process finished.";
  _ ← (if download_images
       then log_callback ("Downloaded " ++ pretty (fst totals)
                          ++ " new image(s).")
       else mret tt);
  if download_pdfs
  then log_callback ("Generated " ++ pretty (snd totals)
                     ++ " new PDF report(s).")
  else mret tt.

(** The part of the run after the client list is there: the
    browser, the loop and the summary. *)
Definition run_with_clients (clients_dict : list (Z * client_record))
    (download_pdfs download_images : bool) : M unit :=
  download_pdfs ←
    (if download_pdfs then
       browser ← _get_browser;
       if (browser : bool) then mret true
       else
         _ ← log_callback
               "Could not start browser. PDF downloads will be skipped.";
         mret false
     else mret false);
  totals ← sync_loop clients_dict download_pdfs download_images;
  summary download_pdfs download_images totals.

Definition fetch_and_download_all_data
    (download_pdfs download_images : bool) : M unit :=
  token ← gets st_auth_token;
  match token with
  | None => log_callback "Cannot start sync. Please log in first."
  | Some _ =>
    clients_dict ← _sync_clients;
    match clients_dict with
    | [] => log_callback "Aborting sync: Failed to get client list."
    | _ :: _ => run_with_clients clients_dict download_pdfs download_images
    end
  end.

End Run.

End Methods.

End PestCareClient.

(** * The specification's wording

    Definitions that follow the words of the specification, to be
    compared with the code above. *)

Module Spec.
Import Py Date.

(** "Sanitization strips all characters except alphanumerics, space,
    underscore, and trims trailing whitespace." *)
Definition allowed (a : ascii) : bool :=
  isalnum a || bool_decide (a = " "%char) || bool_decide (a = "_"%char).

Fixpoint drop_while {A} (p : A → bool) (l : list A) : list A :=
  match l with
  | [] => []
  | x :: l' => if p x then drop_while p l' else l
  end.

Definition strip_disallowed (s : string) : string :=
  string_of_list_ascii (List.filter allowed (list_ascii_of_string s)).

Definition trim_trailing_whitespace (s : string) : string :=
  string_of_list_ascii
    (rev (drop_while isspace (rev (list_ascii_of_string s)))).

Definition sanitize (s : string) : string :=
  trim_trailing_whitespace (strip_disallowed s).

(** "Category Path: derived string = sanitize(technician_name) /
    sanitize(client_name) / {Foto | STS Reports}." *)
Definition category_path (technician client kind : string) : string :=
  os_path_join (sanitize technician) [sanitize client; kind].

(** The work-date of a record, when it has one that parses. *)
Definition work_date (record : dict) : option date :=
  match strptime_date (get "date_work" record) with
  | Ok d => Some d
  | Raise _ => None
  end.

(** "The subset whose parsed date lies within [start, end]", a closed
    interval of day numbers. *)
Definition in_window (start_day end_day : date) (record : dict) : bool :=
  match work_date record with
  | Some d => Z.leb (toordinal start_day) (toordinal d)
              && Z.leb (toordinal d) (toordinal end_day)
  | None => false
  end.

End Spec.

(** * What a batch of download jobs may do

    The behaviour the specification asks of the download pool, job by
    job: a job either is streamed to disk, recorded and counted, or
    fails, leaves the store as it was and is reported; whatever a job
    does, the next one is run. *)

Module PoolSpec.
Import Py DatabaseHandler PestCareClient.






End PoolSpec.

(** * What a run leaves behind *)

Module RunSpec.
Import Py DatabaseHandler PestCareClient.

(** The events of document production: the composer, the page and the
    PDF file. *)
Definition is_document_event (e : event) : bool :=
  match e with
  | EvCompose _ | EvNewPage | EvSetContent _ | EvPdf _ | EvPageClose => true
  | EvLog _ | EvRequest _ _ _ | EvLaunch _ | EvMakedirs _
  | EvDownload _ _ _ => false
  end.

(** The lines given to [log_callback], in order. *)
Fixpoint log_lines (t : list event) : list string :=
  match t with
  | [] => []
  | EvLog line :: t' => line :: log_lines t'
  | _ :: t' => log_lines t'
  end.

(** The summary of a run that produced no documents on request or
    after the browser failed: the rule, the closing line and, when
    images were asked for, their count. *)
Definition summary_without_documents (download_images : bool)
    (total_images : Z) : list event :=
  [EvLog (newline ++ "-------------------------------------------");
   EvLog "Smart Sync process finished."]
  ++ (if download_images
      then [EvLog ("Downloaded " ++ pretty total_images ++ " new image(s).")]
      else []).

End RunSpec.

(** * A sample world

    One client with one contract, one report of technician "Budi S."
    dated 2024-03-15 and one uploaded image. *)

Module Sample.
Import Py Date DatabaseHandler PestCareClient.

Definition envelope (v : value) : result value :=
  Ok (VDict [("code", VInt 200); ("body", v)]).

Definition sample_report : dict :=
  [("schedule_id", VInt 77); ("employee_name", VStr "Budi S.");
   ("date_work", VStr "2024-03-15")].

Definition sample_http (t : list event) (method : http_method)
    (endpoint : string) (payload : value) : result value :=
  if String.eqb endpoint "/web/api/client/no-paging" then
    envelope (VList [VDict [("id", VInt 1); ("name", VStr "Acme, Inc.")]])
  else if String.eqb endpoint "/web/api/contract/1/client" then
    envelope (VList [VDict [("id", VInt 10)]])
  else if String.eqb endpoint "/web/api/report/check-report-service" then
    envelope (VDict [("contract",
                      VDict [("clients", VDict [("address", VStr "Jl. Ijen 1")]);
                             ("branches", VDict [("name", VStr "Malang")])])])
  else if String.eqb endpoint "/web/api/report/form-sts" then
    envelope (VList [VDict sample_report])
  else if String.eqb endpoint "/web/api/schedule/file-uploaded" then
    envelope (VList [VDict [("id", VInt 5);
                            ("filename", VStr "https://files/y.png")]])
  else Raise RequestException.

(** The world, with a browser that starts or not and one outcome for
    every image download. *)
Definition sample_env (browser_starts : bool) (outcome : download_outcome)
  : environment :=
  {| http_json := sample_http;
     path_exists := λ _ _, false;
     chrome_candidates := [];
     pyppeteer_executable := λ _, Ok "chromium";
     launch := λ _ _, if browser_starts then Ok tt else Raise BrowserError;
     browser_connected := λ _, true;
     makedirs := λ _ _, Ok tt;
     download := λ _ _ _, outcome;
     generate_html_report := λ _ _ _ _, Ok "<html></html>";
     new_page := λ _, Ok tt;
     set_content := λ _ _, Ok tt;
     pdf := λ _ _, Ok tt;
     page_close := λ _, Ok tt;
     clock := λ t, Z.of_nat (length t);
     repr := λ _, "[...]";
     path_ext := λ _, ".png";
     completion_order := λ l, l |}.

(** A client that is logged in, on a store that holds [history]. *)
Definition logged_in (history : db) : state :=
  State history [] false "" (Some "token")
        (VDict [("employee_branch_id", VInt 3)]).

Definition fresh : db := create_tables None.

(** The store after the sample report has been rendered once. *)
Definition rendered_once : db :=
  Db [HistoryRow 1 "STS_Report_Acme, Inc._2024-03-15_77.pdf"
                 "Budi S/Acme Inc/STS Reports" "api_generated_77" 0]
     1 ∅.

(** The run in which the browser does not start: the state once the
    clients are synced, and once the browser has been tried. *)
Definition clients_synced : state :=
  snd (_sync_clients (sample_env false Streamed) (logged_in fresh)).

Definition browser_tried : state :=
  snd (_get_browser (sample_env false Streamed) clients_synced).

End Sample.

(** * Notions used in the proofs *)

Module Helpers.
Import Py Date DatabaseHandler PestCareClient Spec RunSpec Sample.
Local Open Scope Z_scope.

(** One turn of the loop of [_sanitize_report_data]. *)
Definition normalize (report : dict) (key : string) : dict :=
  if is_list (get key report) then report
  else setitem key (VList []) report.

Definition as_list (o : option value) : list value :=
  match o with
  | Some (VList l) => l
  | _ => []
  end.

(** [rstrip] on the list of characters. *)
Fixpoint rstrip_chars (l : list ascii) : list ascii :=
  match l with
  | [] => []
  | a :: l' =>
    match rstrip_chars l' with
    | [] => if isspace a then [] else [a]
    | t => a :: t
    end
  end.

Definition year_length (y : Z) : Z := if is_leap y then 366 else 365.

(** What the loop decides for one record, in the terms of the code. *)
Definition passes (start_date end_date : date) (record : dict) : bool :=
  match strptime_date (get "date_work" record) with
  | Ok d => date_le start_date d && date_le d end_date
  | Raise _ => false
  end.

Definition dated (day : string) : dict :=
  [("schedule_id", VInt 77); ("date_work", VStr day)].

Definition has_date (record : dict) : bool :=
  match work_date record with Some _ => true | None => false end.

(** A method that leaves no event of document production. *)
Definition quiet {A} (m : M A) : Prop :=
  ∀ s, ∃ evs, st_trace (snd (m s)) = (st_trace s ++ evs)%list
              ∧ Forall (λ e, is_document_event e = false) evs.

(** What a method returns, when it returns. *)
Definition returns {A} (Q : A → Prop) (m : M A) : Prop :=
  ∀ s a s', m s = (Ok a, s') → Q a.

Definition failed_browser_run : result unit * state :=
  fetch_and_download_all_data (sample_env false Streamed) 4 "out"
    "2024-03-01" "2024-03-31" (VList [VInt 9]) true true (logged_in fresh).

End Helpers.

(** * Further notions: the store *)

Module StoreNotions.
Import DatabaseHandler.
Local Open Scope Z_scope.


(** The row ids are distinct, positive and not above the counter. *)
Definition ids_in_order (d : db) : Prop :=
  NoDup (map row_id (download_history d))
  ∧ 0 ≤ history_seq d
  ∧ Forall (λ r, 1 ≤ row_id r ≤ history_seq d) (download_history d).

End StoreNotions.

(** * Further notions: the filter and the report *)

Module FilterNotions.
Import Py Date PestCareClient Helpers.

(** What the loop of the filter decides for an element of any shape
    that it gets past. *)
Definition kept_by (start_date end_date : date) (v : value) : bool :=
  match v with
  | VDict d => passes start_date end_date d
  | _ => false
  end.

(** Whether a value has the method [get], that is, is a dict. *)
Definition is_ok_dict (v : value) : bool :=
  match v with VDict _ => true | _ => false end.

(** The keys of a dict, in their order. *)
Definition keys (d : dict) : list string := map fst d.

Definition absent_from (d : dict) (k : string) : bool :=
  match lookup_key k d with
  | Some _ => false
  | None => true
  end.

End FilterNotions.

(** * Further notions: paths and formatted dates *)

Module PathNotions.
Import Py Date PestCareClient Spec.
Local Open Scope Z_scope.

(** The characters a category path is made of: those sanitisation
    lets through, and the separator. *)
Definition path_char (a : ascii) : bool :=
  allowed a || bool_decide (a = "/"%char).

Definition all_chars (p : ascii → bool) (s : string) : bool :=
  forallb p (list_ascii_of_string s).

Fixpoint last_char (s : string) : option ascii :=
  match s with
  | EmptyString => None
  | String a EmptyString => Some a
  | String _ s' => last_char s'
  end.

(** [strftime('%Y-%m-%d')] of a date, as the window writes its default
    dates: the year in four digits, month and day in two. (For a year
    below 1000 the C library decides whether the year is padded.) *)
Definition digit_char (k : Z) : ascii := ascii_of_N (Z.to_N (48 + k)).

Definition two_digits (n : Z) : string :=
  String (digit_char (n / 10)) (String (digit_char (n mod 10)) EmptyString).

Definition four_digits (n : Z) : string :=
  String (digit_char (n / 1000))
    (String (digit_char (n / 100 mod 10))
       (String (digit_char (n / 10 mod 10))
          (String (digit_char (n mod 10)) EmptyString))).

Definition strftime_ymd (d : date) : string :=
  four_digits (year d) ++ "-" ++ two_digits (month d)
  ++ "-" ++ two_digits (day d).

(** What the regular expression matches once the year is read. *)
Definition matches_after_year (y : Z) (r1 : list ascii)
  : list (date * list ascii) :=
  r2 ← match_dash r1;
  '(m, r3) ← match_m r2;
  r4 ← match_dash r3;
  '(d, r5) ← match_d r4;
  [(MkDate y m d, r5)].

End PathNotions.

(** * Further notions: a run *)

Module RunNotions.
Import Py DatabaseHandler PestCareClient.

Definition is_launch (e : event) : bool :=
  match e with EvLaunch _ => true | _ => false end.

(** How many times the trace starts a browser. *)
Definition launches (t : list event) : nat := length (List.filter is_launch t).

(** From one store to a later one: the history has only been appended
    to, and unique keys have stayed unique. *)
Definition grown (d d' : db) : Prop :=
  (∃ rows, download_history d' = (download_history d ++ rows)%list)
  ∧ (unique_keys d → unique_keys d').

(** A method under which the store only grows. *)
Definition grows {A} (m : M A) : Prop :=
  ∀ s, grown (st_db s) (st_db (snd (m s))).

(** An entry of a file manifest that the image scan passes over: it
    lacks the url or the id, or its file is in the history already. *)
Definition passed_over (env : environment) (schedule_id technician_name : value)
    (client_name : string) (d : db) (file_data : value) : Prop :=
  ∃ fd, file_data = VDict fd
    ∧ (negb (truthy (get "filename" fd)) || negb (truthy (get "id" fd)) = true
       ∨ ∃ url category,
           get "filename" fd = VStr url
           ∧ category_at_enqueue technician_name client_name = Ok category
           ∧ is_already_downloaded
               ("ReportImage_" ++ py_str env schedule_id ++ "_"
                ++ py_str env (get "id" fd)
                ++ (if bool_decide (path_ext env url = "") then ".jpg"
                    else path_ext env url))
               category d = true).

(** The store after the image of the sample report was downloaded. *)
Definition downloaded_once : db :=
  Db [HistoryRow 1 "ReportImage_77_5.png" "Budi S/Acme Inc/Foto"
                 "https://files/y.png" 0]
     1 ∅.

(** The sample world without a network: every request fails. *)
Definition offline_env : environment :=
  {| http_json := λ _ _ _ _, Raise RequestException;
     path_exists := path_exists (Sample.sample_env true Streamed);
     chrome_candidates := [];
     pyppeteer_executable := λ _, Ok "chromium";
     launch := λ _ _, Ok tt;
     browser_connected := λ _, true;
     makedirs := λ _ _, Ok tt;
     download := λ _ _ _, ConnectFailed;
     generate_html_report := λ _ _ _ _, Ok "<html></html>";
     new_page := λ _, Ok tt;
     set_content := λ _ _, Ok tt;
     pdf := λ _ _, Ok tt;
     page_close := λ _, Ok tt;
     clock := λ t, Z.of_nat (length t);
     repr := λ _, "[...]";
     path_ext := λ _, ".png";
     completion_order := λ l, l |}.

End RunNotions.

(** * The login ([login_and_get_technicians]) *)

Module Login.
Import Py DatabaseHandler PestCareClient Sample.

(** [self.auth_token = ...; self.account_info = ...] *)
Definition with_login (token : option string) (account : value) (s : state)
  : state :=
  State (st_db s) (st_trace s) (st_browser s) (st_chrome_path s)
        token account.

(** [sub in s] for two strings. *)
Fixpoint contains (sub s : string) : bool :=
  String.prefix sub s
  || match s with
     | EmptyString => false
     | String _ s' => contains sub s'
     end.

(** [key in container] for a string [key]: a key of a dict, an element
    of a list, a part of a string; nothing else can be searched. *)
Definition py_in (key : string) (container : value) : result bool :=
  match container with
  | VDict d => Ok (match lookup_key key d with Some _ => true | None => false end)
  | VList l =>
    Ok (existsb (λ v, match v with
                      | VStr x => bool_decide (x = key)
                      | _ => false
                      end) l)
  | VStr s => Ok (contains key s)
  | VNone | VBool _ | VInt _ => Raise TypeError
  end.

(** [container[key]] for a string [key]. *)
Definition subscript (container : value) (key : string) : result value :=
  match container with
  | VDict d =>
    match lookup_key key d with
    | Some v => Ok v
    | None => Raise KeyError
    end
  | _ => Raise TypeError
  end.

(** [v is None] *)
Definition is_none (v : value) : bool :=
  match v with VNone => true | _ => false end.

(** [v == 200] *)
Definition is_200 (v : value) : bool :=
  match v with VInt z => Z.eqb z 200 | _ => false end.

Section Methods.
Variable env : environment.

(** What the client holds as its token: [None], or the text that goes
    into the Authorization header. *)
Definition token_text (token : value) : option string :=
  match token with
  | VNone => None
  | v => Some (py_str env v)
  end.

(** [is_logged_in] *)
Definition is_logged_in (s : state) : bool :=
  match st_auth_token s with Some _ => true | None => false end.

(** Only [RequestException] is caught; an answer that is not JSON
    reaches the caller as the [ValueError] of [response.json()] unless
    the library raises it as a [RequestException]. *)
Definition login_and_get_technicians (username password : string)
  : M (bool * value) :=
  let payload :=
    VDict [("username", VStr username); ("password", VStr password)] in
  try_except
    (r ← gets (λ s, http_json env (st_trace s) POST "/web/api/auth/login"
                      payload);
     _ ← emit (EvRequest POST "/web/api/auth/login" payload);
     data ← lift r;
     d ← lift (as_dict data);
     granted ← lift (if is_200 (get "code" d)
                     then py_in "accessToken"
                                (get_default "body" (VDict []) d)
                     else Ok false);
     if (granted : bool) then
       body ← lift (subscript data "body");
       token ← lift (subscript body "accessToken");
       b ← lift (as_dict body);
       let account := get "account" b in
       _ ← (λ s, (Ok tt, with_login (token_text token) account s));
       info ← lift (as_dict account);
       let branch_id := get "employee_branch_id" info in
       techs ← _fetch_api_data env "/web/api/employee/no-paging"
                 (VDict [("branch_id", branch_id)]) GET VNone;
       mret (true, techs)
     else mret (false, VNone))
    (λ e, match e with
          | RequestException => Some (mret (false, VNone))
          | _ => None
          end).

End Methods.

(** The sample world with a server that grants the login. *)
Definition granting_http (t : list event) (method : http_method)
    (endpoint : string) (payload : value) : result value :=
  if String.eqb endpoint "/web/api/auth/login" then
    envelope (VDict [("accessToken", VStr "eyJ0");
                     ("account", VDict [("employee_branch_id", VInt 3)])])
  else if String.eqb endpoint "/web/api/employee/no-paging" then
    envelope (VList [VDict [("id", VInt 9); ("fullname", VStr "Budi S.")]])
  else sample_http t method endpoint payload.

Definition granting_env : environment :=
  {| http_json := granting_http;
     path_exists := path_exists (sample_env true Streamed);
     chrome_candidates := chrome_candidates (sample_env true Streamed);
     pyppeteer_executable := pyppeteer_executable (sample_env true Streamed);
     launch := launch (sample_env true Streamed);
     browser_connected := browser_connected (sample_env true Streamed);
     makedirs := makedirs (sample_env true Streamed);
     download := download (sample_env true Streamed);
     generate_html_report := generate_html_report (sample_env true Streamed);
     new_page := new_page (sample_env true Streamed);
     set_content := set_content (sample_env true Streamed);
     pdf := pdf (sample_env true Streamed);
     page_close := page_close (sample_env true Streamed);
     clock := clock (sample_env true Streamed);
     repr := repr (sample_env true Streamed);
     path_ext := path_ext (sample_env true Streamed);
     completion_order := completion_order (sample_env true Streamed) |}.

(** A client that has not logged in yet. *)
Definition logged_out : state :=
  State (create_tables None) [] false "" None VNone.

End Login.

(** * The image cache of the composer
      ([src/api/report_generator.py], [get_image_as_base64]) *)

Module ReportGenerator.
Import Py Login.

Definition PLACEHOLDER_TRANSPARENT_PIXEL : string :=
  "data:image/gif;base64,R0lGODlhAQABAIAAAAAAAP///yH5BAEAAAAALAAAAAABAAEAAAIBRAA7".

(** [session.get] with [raise_for_status]: a [RequestException], or
    the bytes and the Content-Type header of the answer. *)
Inductive fetched : Type :=
| FetchFailed
| Fetched (content : string) (content_type : option string).

(** [open(path, 'rb')] and [read]: an [IOError], or the bytes. *)
Inductive file_read : Type :=
| ReadFailed
| ReadOk (content : string).

Inductive image_event : Type :=
| ImgGet (url : string)
| ImgPrint (line : string)
| ImgOpen (path : string).

Record image_world : Type := ImageWorld {
  http_image : list image_event → string → fetched;
  file_exists : list image_event → string → bool;
  file_content : list image_event → string → file_read;
  (* base64.b64encode(content).decode('utf-8') *)
  b64encode : string → string
}.

(** The module's global [IMAGE_CACHE] and the calls made so far. *)
Record image_state : Type := ImageState {
  IMAGE_CACHE : gmap string string;
  image_trace : list image_event
}.

(** [str.lower] on code points below 256. *)
Definition lower_char (a : ascii) : ascii :=
  if in_range 65 90 a || in_range 192 214 a || in_range 216 222 a
  then ascii_of_N (N_of_ascii a + 32)
  else a.

Fixpoint lower (s : string) : string :=
  match s with
  | EmptyString => EmptyString
  | String a s' => String (lower_char a) (lower s')
  end.

(** [s.endswith(suffix)] *)
Definition ends_with (suffix s : string) : bool :=
  String.prefix (string_of_list_ascii (rev (list_ascii_of_string suffix)))
                (string_of_list_ascii (rev (list_ascii_of_string s))).

Definition data_uri (w : image_world) (img_format content : string) : string :=
  "data:image/" ++ img_format ++ ";base64," ++ b64encode w content.

Definition store (key uri : string) (events : list image_event)
    (s : image_state) : result string * image_state :=
  (Ok uri, ImageState (<[key := uri]> (IMAGE_CACHE s))
                      (image_trace s ++ events)).

Definition answer_placeholder (events : list image_event) (s : image_state)
  : result string * image_state :=
  (Ok PLACEHOLDER_TRANSPARENT_PIXEL,
   ImageState (IMAGE_CACHE s) (image_trace s ++ events)).

Definition get_image_as_base64 (w : image_world) (path_or_url : value)
    (s : image_state) : result string * image_state :=
  if negb (truthy path_or_url) then (Ok PLACEHOLDER_TRANSPARENT_PIXEL, s)
  else
    match path_or_url with
    | VList _ | VDict _ => (Raise TypeError, s)        (* unhashable *)
    | VNone | VBool _ | VInt _ => (Raise AttributeError, s)  (* startswith *)
    | VStr p =>
      match IMAGE_CACHE s !! p with
      | Some uri => (Ok uri, s)
      | None =>
        if String.prefix "http" p then
          match http_image w (image_trace s) p with
          | FetchFailed => answer_placeholder [ImgGet p] s
          | Fetched content header =>
            let content_type :=
              lower (match header with Some h => h | None => "image/png" end) in
            let img_format :=
              if contains "jpeg" content_type || contains "jpg" content_type
              then "jpeg" else "png" in
            store p (data_uri w img_format content) [ImgGet p] s
          end
        else
          if negb (file_exists w (image_trace s) p) then
            answer_placeholder [ImgPrint ("Warning: Local image not found at " ++ p)] s
          else
            match file_content w (image_trace s) p with
            | ReadFailed => answer_placeholder [ImgOpen p] s
            | ReadOk content =>
              let img_format :=
                if ends_with ".png" (lower p) then "png" else "jpeg" in
              store p (data_uri w img_format content) [ImgOpen p] s
            end
      end
    end.

(** A world for the examples. *)
Definition sample_images (online : bool) : image_world :=
  {| http_image := λ _ _, if online then Fetched "JFIF" (Some "image/JPEG")
                          else FetchFailed;
     file_exists := λ _ p, String.eqb p "images/Logo MaxxGuard-1f60aee0.png";
     file_content := λ _ _, ReadOk "PNG";
     b64encode := λ content, "b64(" ++ content ++ ")" |}.

End ReportGenerator.

(** * Properties *)

(** ** The history store *)

Module DatabaseHandlerFacts.
Import DatabaseHandler.


Lemma records_for_absent f c d :
  is_already_downloaded f c d = false → records_for f c d = 0%nat.
Proof.
  unfold is_already_downloaded, records_for.
  induction (download_history d) as [|r l IH]; simpl; [done|].
  intros H. apply orb_false_iff in H as [Hr Hl].
  rewrite filter_cons. rewrite decide_False by (rewrite Hr; done).
  auto.
Qed.


Lemma key_matches_same f c i u n :
  key_matches f c (HistoryRow i f c u n) = true.
Proof.
  unfold key_matches. simpl.
  rewrite !bool_decide_eq_true_2 by done. done.
Qed.

Lemma key_matches_other f c f' c' i u n :
  (f, c) ≠ (f', c') → key_matches f' c' (HistoryRow i f c u n) = false.
Proof.
  intros Hne. unfold key_matches. simpl.
  apply andb_false_iff.
  destruct (decide (f = f')) as [->|]; [right|left];
    apply bool_decide_eq_false_2; congruence.
Qed.

Lemma records_for_insert now f c u d d' f' c' :
  insert_download_history now f c u d = Ok d' →
  records_for f' c' d' =
    if decide ((f, c) = (f', c')) then 1%nat else records_for f' c' d.
Proof.
  unfold insert_download_history.
  destruct (existsb _ _) eqn:Hex; [done|].
  intros [= <-]. unfold records_for at 1. simpl.
  rewrite filter_app, length_app, filter_cons, filter_nil.
  destruct (decide ((f, c) = (f', c'))) as [Hk|Hk].
  - simplify_eq.
    rewrite key_matches_same, decide_True by done.
    pose proof (records_for_absent _ _ _ Hex) as H0.
    unfold records_for in H0. rewrite H0. done.
  - rewrite key_matches_other, decide_False by done.
    simpl. unfold records_for. lia.
Qed.

Lemma add_download_record_ok now f c u d :
  ∃ d', add_download_record now f c u d = Ok d'.
Proof.
  unfold add_download_record, insert_download_history.
  destruct (existsb _ _); eauto.
Qed.

Lemma add_download_record_cases now f c u d d' :
  add_download_record now f c u d = Ok d' →
  (is_already_downloaded f c d = true ∧ d' = d) ∨
  (is_already_downloaded f c d = false ∧
   insert_download_history now f c u d = Ok d').
Proof.
  unfold add_download_record, insert_download_history,
    is_already_downloaded.
  destruct (existsb _ _); intros [= <-]; auto.
Qed.

Lemma add_download_record_unique_keys now f c u d d' :
  unique_keys d → add_download_record now f c u d = Ok d' →
  unique_keys d'.
Proof.
  intros Hu Ha f' c'.
  destruct (add_download_record_cases _ _ _ _ _ _ Ha) as [[_ ->]|[_ Hi]];
    [apply Hu|].
  rewrite (records_for_insert _ _ _ _ _ _ f' c' Hi).
  case_decide; [lia|apply Hu].
Qed.














End DatabaseHandlerFacts.

(** ** Sanitisation of a report and of the category path *)

Module SanitizeFacts.
Import Py PestCareClient Spec Helpers.

Lemma lookup_setitem_eq k v d : lookup_key k (setitem k v d) = Some v.
Proof.
  induction d as [|[k' v'] d IH]; simpl.
  - by rewrite decide_True.
  - destruct (decide (k' = k)) as [->|Hne]; simpl.
    + by rewrite decide_True.
    + by rewrite decide_False.
Qed.

Lemma lookup_setitem_ne k k' v d :
  k ≠ k' → lookup_key k' (setitem k v d) = lookup_key k' d.
Proof.
  intros Hne. induction d as [|[k0 v0] d IH]; simpl.
  - by rewrite decide_False.
  - destruct (decide (k0 = k)) as [->|H0]; simpl.
    + by rewrite !decide_False.
    + destruct (decide (k0 = k')); done.
Qed.

Lemma normalize_same report key :
  lookup_key key (normalize report key)
  = Some (VList (as_list (lookup_key key report))).
Proof.
  unfold normalize, get.
  destruct (lookup_key key report) as [[]|] eqn:E; simpl;
    rewrite ?lookup_setitem_eq; done.
Qed.

Lemma normalize_other report key k :
  key ≠ k → lookup_key k (normalize report key) = lookup_key k report.
Proof.
  intros Hne. unfold normalize.
  destruct (is_list _); [done|]. by apply lookup_setitem_ne.
Qed.

Lemma normalize_list report key k :
  is_list (get k report) = true →
  lookup_key k (normalize report key) = lookup_key k report.
Proof.
  intros Hl. destruct (decide (key = k)) as [->|Hne].
  - unfold normalize. by rewrite Hl.
  - by apply normalize_other.
Qed.

Lemma fold_normalize_other keys : ∀ report k,
  k ∉ keys → lookup_key k (fold_left normalize keys report) = lookup_key k report.
Proof.
  induction keys as [|key keys IH]; intros report k Hk; simpl; [done|].
  apply not_elem_of_cons in Hk as [Hne Hk].
  rewrite IH by done. apply normalize_other. done.
Qed.

Lemma fold_normalize_list keys : ∀ report k,
  is_list (get k report) = true →
  lookup_key k (fold_left normalize keys report) = lookup_key k report.
Proof.
  induction keys as [|key keys IH]; intros report k Hl; simpl; [done|].
  rewrite IH; [by apply normalize_list|].
  unfold get. rewrite normalize_list by done. done.
Qed.

Lemma fold_normalize_same keys : ∀ report k,
  k ∈ keys →
  lookup_key k (fold_left normalize keys report)
  = Some (VList (as_list (lookup_key k report))).
Proof.
  induction keys as [|key keys IH]; intros report k Hk; simpl.
  - by apply elem_of_nil in Hk.
  - destruct (decide (key = k)) as [->|Hne].
    + rewrite fold_normalize_list.
      * apply normalize_same.
      * unfold get. by rewrite normalize_same.
    + apply elem_of_cons in Hk as [->|Hk]; [done|].
      rewrite IH by done. by rewrite normalize_other.
Qed.

(** C8. After [_sanitize_report_data] each of the five list keys is
    present and holds a list: the list the input had under that key,
    and the empty list when the key was absent, null or held anything
    that is not a list. *)
Theorem sanitize_lists_total (report : dict) :
  Forall
    (λ key,
       lookup_key key (_sanitize_report_data report)
       = Some (VList match lookup_key key report with
                     | Some (VList l) => l
                     | _ => []
                     end)
       ∧ is_list (get key (_sanitize_report_data report)) = true)
    list_keys.
Proof.
  apply Forall_forall. intros key Hkey.
  assert (lookup_key key (_sanitize_report_data report)
          = Some (VList (as_list (lookup_key key report)))) as E.
  { by apply (fold_normalize_same list_keys). }
  split; [exact E|]. unfold get. by rewrite E.
Qed.

(** C9. A key that is not one of the five list keys, or whose value is
    already a list, has the same value after [_sanitize_report_data]
    as before (and is absent after if it was absent before). *)
Theorem sanitize_frame (report : dict) (key : string)
    (Hkey : key ∉ list_keys ∨ is_list (get key report) = true) :
  lookup_key key (_sanitize_report_data report) = lookup_key key report.
Proof.
  destruct Hkey as [Hout|Hlist].
  - by apply (fold_normalize_other list_keys).
  - by apply (fold_normalize_list list_keys).
Qed.

Lemma sanitize_frame_witness :
  lookup_key "schedule_id"
    (_sanitize_report_data
       [("schedule_id", VInt 77); ("uploaded_files", VNone)])
  = lookup_key "schedule_id"
      [("schedule_id", VInt 77); ("uploaded_files", VNone)].
Proof.
  apply sanitize_frame. left.
  unfold list_keys. rewrite !not_elem_of_cons.
  repeat split; try discriminate. apply not_elem_of_nil.
Defined.

Example sanitize_fills_missing :
  _sanitize_report_data [("schedule_id", VInt 77); ("uploaded_files", VNone);
                         ("report_detail_chemicals", VList [VInt 1])]
  = [("schedule_id", VInt 77); ("uploaded_files", VList []);
     ("report_detail_chemicals", VList [VInt 1]);
     ("report_detail_feedbacks", VList []);
     ("report_detail_treatments", VList []);
     ("report_detail_type_works", VList [])].
Proof. reflexivity. Qed.

(** *** The category path *)

Lemma keeps_char (a : ascii) :
  keeps (VStr (String a EmptyString)) = Ok (allowed a).
Proof.
  unfold keeps, allowed, str_isalnum. simpl.
  rewrite andb_true_r. f_equal. f_equal; [f_equal|].
  - apply bool_decide_ext. split; congruence.
  - apply bool_decide_ext. split; congruence.
Qed.

Lemma join_kept_chars (l : list ascii) :
  join_kept (map (λ a, VStr (String a EmptyString)) l)
  = Ok (string_of_list_ascii (List.filter allowed l)).
Proof.
  induction l as [|a l IH]; [done|].
  cbn [map join_kept]. rewrite keeps_char, IH. cbn [mbind result_bind].
  cbn [List.filter]. destruct (allowed a); done.
Qed.

Lemma drop_while_app {A} (p : A → bool) (x y : list A) :
  drop_while p (x ++ y)
  = match drop_while p x with
    | [] => drop_while p y
    | t => (t ++ y)%list
    end.
Proof.
  induction x as [|a x IH]; simpl; [by destruct (drop_while p y)|].
  destruct (p a); done.
Qed.

Lemma rstrip_chars_rev (l : list ascii) :
  rstrip_chars l = rev (drop_while isspace (rev l)).
Proof.
  induction l as [|a l IH]; [done|].
  cbn [rstrip_chars rev]. rewrite drop_while_app, IH.
  destruct (drop_while isspace (rev l)) as [|b t] eqn:E.
  - simpl. destruct (isspace a); done.
  - rewrite rev_app_distr. simpl. destruct (rev t); done.
Qed.

Lemma rstrip_as_chars (s : string) :
  rstrip s = string_of_list_ascii (rstrip_chars (list_ascii_of_string s)).
Proof.
  induction s as [|a s IH]; [done|].
  cbn [rstrip list_ascii_of_string rstrip_chars]. rewrite IH.
  destruct (rstrip_chars (list_ascii_of_string s)); simpl; [|done].
  destruct (isspace a); done.
Qed.

Lemma rstrip_trim (s : string) : rstrip s = trim_trailing_whitespace s.
Proof.
  unfold trim_trailing_whitespace.
  by rewrite rstrip_as_chars, rstrip_chars_rev.
Qed.

(** The expression written at each site, on a name that is a string. *)
Lemma sanitized_name (name : string) :
  (cs ← iterate (VStr name); join_kept cs) = Ok (strip_disallowed name).
Proof. simpl. apply join_kept_chars. Qed.

(** The dictionary put in [files_to_download] hands the two names to
    the worker as they are, whatever the technician name is. *)
Lemma category_worker_enqueue (url filename client : string)
    (technician : value) :
  category_at_worker (FileInfo url filename technician client)
  = category_at_enqueue technician client.
Proof. reflexivity. Qed.

(** C2. For every technician name and client name, the category path
    computed at the enqueue site of the images, in the download worker
    and in the PDF pipeline is the path the specification describes for
    the kind folder of that site; so the two image sites give the same
    string, and the PDF site differs from them in the kind folder
    only. *)
Theorem category_path_agrees (technician client url filename : string) :
  category_at_enqueue (VStr technician) client
  = Ok (category_path technician client "Foto")
  ∧ category_at_worker (FileInfo url filename (VStr technician) client)
    = Ok (category_path technician client "Foto")
  ∧ category_at_pdf (VStr technician) client
    = Ok (category_path technician client "STS Reports").
Proof.
  assert (∀ name, join_kept (map (λ a, VStr (String a EmptyString))
                                 (list_ascii_of_string name))
                  = Ok (strip_disallowed name)) as Hname.
  { intros name. apply join_kept_chars. }
  unfold category_at_enqueue, category_at_worker, category_at_pdf,
    category_path, sanitize.
  cbn [iterate fi_technician_name fi_client_name mbind result_bind].
  rewrite !Hname. cbn [mbind result_bind].
  rewrite !rstrip_trim. done.
Qed.

Example category_strips_punctuation :
  category_at_pdf (VStr "Budi S. ") "Acme, Inc./Sby"
  = Ok "Budi S/Acme IncSby/STS Reports".
Proof. reflexivity. Qed.

Example join_skips_empty_parts :
  os_path_join "" ["b"; "Foto"] = "b/Foto"
  ∧ os_path_join "a" [""; "Foto"] = "a/Foto"
  ∧ os_path_join "out/" ["x"] = "out/x".
Proof. repeat split. Qed.

Example category_of_empty_name :
  category_at_enqueue (VStr "???") "Acme" = Ok "Acme/Foto".
Proof. reflexivity. Qed.

End SanitizeFacts.

(** ** The date window *)

Module DateFacts.
Import Py Date PestCareClient Spec Helpers.
Local Open Scope Z_scope.

Lemma valid_bounds (d : date) :
  valid d = true →
  1 ≤ year d ≤ 9999 ∧ 1 ≤ month d ≤ 12
  ∧ 1 ≤ day d ≤ days_in_month (year d) (month d).
Proof.
  unfold valid. rewrite !andb_true_iff, !Z.leb_le. lia.
Qed.

Lemma month_cases (m : Z) :
  1 ≤ m ≤ 12 →
  m = 1 ∨ m = 2 ∨ m = 3 ∨ m = 4 ∨ m = 5 ∨ m = 6
  ∨ m = 7 ∨ m = 8 ∨ m = 9 ∨ m = 10 ∨ m = 11 ∨ m = 12.
Proof. lia. Qed.

Lemma days_before_year_next (y : Z) :
  days_before_year (y + 1) = days_before_year y + year_length y.
Proof.
  unfold days_before_year, year_length, is_leap.
  replace (y + 1 - 1) with y by lia.
  destruct (Z.eqb_spec (y mod 4) 0), (Z.eqb_spec (y mod 100) 0),
    (Z.eqb_spec (y mod 400) 0); simpl;
    Z.div_mod_to_equations; lia.
Qed.

Lemma year_length_pos (y : Z) : 365 ≤ year_length y.
Proof. unfold year_length. destruct (is_leap y); lia. Qed.

Lemma days_before_year_mono (y1 y2 : Z) :
  y1 < y2 → days_before_year y1 + year_length y1 ≤ days_before_year y2.
Proof.
  intros Hlt. rewrite <- days_before_year_next.
  assert (∀ k, 0 ≤ k → days_before_year (y1 + 1)
                        ≤ days_before_year (y1 + 1 + k)) as Hk.
  { intros k Hk. pattern k. apply natlike_ind; [| |done].
    - by rewrite Z.add_0_r.
    - intros x Hx IH.
      replace (y1 + 1 + Z.succ x) with (y1 + 1 + x + 1) by lia.
      rewrite (days_before_year_next (y1 + 1 + x)).
      pose proof (year_length_pos (y1 + 1 + x)). lia. }
  specialize (Hk (y2 - y1 - 1)).
  replace (y1 + 1 + (y2 - y1 - 1)) with y2 in Hk by lia.
  apply Hk. lia.
Qed.

(** The day of the year lies within the year. *)
Lemma day_of_year_bounds (y m d : Z) :
  1 ≤ m ≤ 12 → 1 ≤ d ≤ days_in_month y m →
  1 ≤ days_before_month y m + d ≤ year_length y.
Proof.
  intros Hm Hd. unfold year_length, days_before_month, days_in_month in *.
  destruct (is_leap y);
    destruct (month_cases m Hm) as [->|[->|[->|[->|[->|[->|[->|[->|[->|[->|[->| ->]]]]]]]]]]];
    simpl in *; lia.
Qed.

Lemma day_of_year_lt (y m1 d1 m2 d2 : Z) :
  1 ≤ m1 → m1 < m2 → m2 ≤ 12 →
  d1 ≤ days_in_month y m1 → 1 ≤ d2 →
  days_before_month y m1 + d1 < days_before_month y m2 + d2.
Proof.
  intros H1 Hlt H2 Hd1 Hd2.
  unfold days_before_month, days_in_month in *.
  assert (1 ≤ m1 ≤ 12) as Hm1 by lia.
  assert (1 ≤ m2 ≤ 12) as Hm2 by lia.
  destruct (is_leap y);
    destruct (month_cases m1 Hm1) as [->|[->|[->|[->|[->|[->|[->|[->|[->|[->|[->| ->]]]]]]]]]]];
    destruct (month_cases m2 Hm2) as [->|[->|[->|[->|[->|[->|[->|[->|[->|[->|[->| ->]]]]]]]]]]];
    try lia; simpl in *; lia.
Qed.

Lemma toordinal_lt (a b : date) :
  valid a = true → valid b = true →
  year a < year b
  ∨ (year a = year b
     ∧ (month a < month b ∨ (month a = month b ∧ day a < day b))) →
  toordinal a < toordinal b.
Proof.
  intros [Hya [Hma Hda]]%valid_bounds [Hyb [Hmb Hdb]]%valid_bounds Hlt.
  unfold toordinal.
  destruct Hlt as [Hy|[Hy [Hm|[Hm Hd]]]].
  - pose proof (days_before_year_mono _ _ Hy).
    pose proof (day_of_year_bounds _ _ _ Hma Hda).
    pose proof (day_of_year_bounds _ _ _ Hmb Hdb). lia.
  - rewrite Hy in *.
    pose proof (day_of_year_lt (year b) (month a) (day a) (month b) (day b)).
    lia.
  - rewrite Hy, Hm. lia.
Qed.

(** On calendar days, the order of [date] objects is the order of the
    day numbers. *)
Lemma date_le_toordinal (a b : date) :
  valid a = true → valid b = true →
  date_le a b = Z.leb (toordinal a) (toordinal b).
Proof.
  intros Ha Hb.
  destruct (Z.leb_spec (toordinal a) (toordinal b)) as [Hle|Hgt].
  - unfold date_le.
    destruct (Z.ltb_spec (year a) (year b)) as [|Hy]; [done|].
    destruct (Z.eqb_spec (year a) (year b)) as [Hye|Hyne].
    + destruct (Z.ltb_spec (month a) (month b)) as [|Hm]; [done|].
      destruct (Z.eqb_spec (month a) (month b)) as [Hme|Hmne].
      * destruct (Z.leb_spec (day a) (day b)) as [|Hd]; [done|].
        pose proof (toordinal_lt b a Hb Ha). lia.
      * pose proof (toordinal_lt b a Hb Ha). lia.
    + pose proof (toordinal_lt b a Hb Ha). lia.
  - unfold date_le.
    destruct (Z.ltb_spec (year a) (year b)) as [Hy|Hy].
    { pose proof (toordinal_lt a b Ha Hb). lia. }
    destruct (Z.eqb_spec (year a) (year b)) as [Hye|Hyne]; [|done].
    destruct (Z.ltb_spec (month a) (month b)) as [Hm|Hm].
    { pose proof (toordinal_lt a b Ha Hb). lia. }
    destruct (Z.eqb_spec (month a) (month b)) as [Hme|Hmne]; [|done].
    destruct (Z.leb_spec (day a) (day b)) as [Hd|Hd]; [|done].
    destruct (Z.eq_dec (day a) (day b)) as [Hde|Hdne].
    + destruct a, b; simpl in *; subst. lia.
    + pose proof (toordinal_lt a b Ha Hb). lia.
Qed.

(** *** [strptime] *)

Example parse_plain : parse "2024-03-15" = Ok (MkDate 2024 3 15).
Proof. reflexivity. Qed.
Example parse_short : parse "2024-3-5" = Ok (MkDate 2024 3 5).
Proof. reflexivity. Qed.
Example parse_time_of_day : parse "2024-03-15T10:30:00" = Raise ValueError.
Proof. reflexivity. Qed.
Example parse_no_such_day : parse "2023-02-29" = Raise ValueError.
Proof. reflexivity. Qed.
Example parse_leap_day : parse "2024-02-29" = Ok (MkDate 2024 2 29).
Proof. reflexivity. Qed.
Example parse_month_13 : parse "2024-13-01" = Raise ValueError.
Proof. reflexivity. Qed.
Example toordinal_known : toordinal (MkDate 2024 3 15) = 738960.
Proof. reflexivity. Qed.
Example parse_blank_day : parse "2024-03- 5" = Ok (MkDate 2024 3 5).
Proof. reflexivity. Qed.
Example parse_two_digit_months : parse "2024-10-5" = Ok (MkDate 2024 10 5).
Proof. reflexivity. Qed.
Example parse_long_month : parse "2024-011-5" = Raise ValueError.
Proof. reflexivity. Qed.
Example parse_year_zero : parse "0000-01-01" = Raise ValueError.
Proof. reflexivity. Qed.
Example parse_trailing_blank : parse "2024-12-31 " = Raise ValueError.
Proof. reflexivity. Qed.

Lemma parse_valid (s : string) (d : date) : parse s = Ok d → valid d = true.
Proof.
  unfold parse.
  destruct (regex_matches _) as [|[d' [|? ?]] ?]; try done.
  destruct (valid d') eqn:E; [|done]. by intros [= <-].
Qed.

Lemma parse_raises (s : string) (e : exn) :
  parse s = Raise e → e = ValueError.
Proof.
  unfold parse.
  destruct (regex_matches _) as [|[d' [|? ?]] ?]; try congruence.
  destruct (valid d'); congruence.
Qed.

Lemma strptime_date_valid (v : value) (d : date) :
  strptime_date v = Ok d → valid d = true.
Proof. destruct v; try done. apply parse_valid. Qed.

Lemma strptime_date_raises (v : value) (e : exn) :
  strptime_date v = Raise e → e = ValueError ∨ e = TypeError.
Proof.
  destruct v; simpl; try (intros [= <-]; by right).
  intros H. left. by eapply parse_raises.
Qed.

(** *** The loop *)

Lemma filter_loop_records (start_date end_date : date) (records : list dict) :
  ∀ filtered,
    filter_loop start_date end_date (map VDict records) filtered
    = Ok (filtered
            ++ map VDict (List.filter (passes start_date end_date) records))%list.
Proof.
  induction records as [|r records IH]; intros filtered.
  - simpl. by rewrite app_nil_r.
  - cbn [map filter_loop as_dict mbind result_bind List.filter].
    replace (passes start_date end_date r)
      with (match strptime_date (get "date_work" r) with
            | Ok d => date_le start_date d && date_le d end_date
            | Raise _ => false
            end) by reflexivity.
    destruct (strptime_date (get "date_work" r)) as [d|e] eqn:E.
    + destruct (date_le start_date d && date_le d end_date).
      * rewrite IH. cbn [map]. by rewrite <- app_assoc.
      * apply IH.
    + destruct (strptime_date_raises _ _ E) as [-> | ->]; apply IH.
Qed.

Lemma passes_in_window (start_date end_date : date) (record : dict) :
  valid start_date = true → valid end_date = true →
  passes start_date end_date record = in_window start_date end_date record.
Proof.
  intros Hs He. unfold passes, in_window, work_date.
  destruct (strptime_date _) as [d|] eqn:E; [|done].
  pose proof (strptime_date_valid _ _ E) as Hd.
  by rewrite !date_le_toordinal.
Qed.

Lemma filter_reports_records (records : list dict)
    (start_str end_str : string) (start_day end_day : date) :
  parse start_str = Ok start_day → parse end_str = Ok end_day →
  _filter_reports_by_date (VList (map VDict records)) start_str end_str
  = Ok (map VDict (List.filter (in_window start_day end_day) records)).
Proof.
  intros Hs He. unfold _filter_reports_by_date.
  cbn [strptime_date iterate]. rewrite Hs, He. cbn [mbind result_bind].
  rewrite filter_loop_records. cbn [app]. f_equal. f_equal.
  apply List.filter_ext. intros r.
  apply passes_in_window; eauto using parse_valid.
Qed.

(** C6. With bounds that parse to the days [start_day] and [end_day],
    the filter returns, in their order, exactly the records whose
    work-date parses to a day [d] whose day number lies in the closed
    interval from that of [start_day] to that of [end_day]. Dates carry
    no time of day, so a record dated on either bound is kept and one
    dated a day before the first or a day after the last is not. *)
Theorem filter_closed_interval (records : list dict)
    (start_str end_str : string) (start_day end_day : date)
    (Hstart : parse start_str = Ok start_day)
    (Hend : parse end_str = Ok end_day) :
  _filter_reports_by_date (VList (map VDict records)) start_str end_str
  = Ok (map VDict (List.filter (in_window start_day end_day) records))
  ∧ ∀ record, In record (List.filter (in_window start_day end_day) records)
      ↔ In record records
        ∧ ∃ d, work_date record = Some d
               ∧ toordinal start_day ≤ toordinal d ≤ toordinal end_day.
Proof.
  split; [by apply filter_reports_records|].
  intros record. rewrite List.filter_In. unfold in_window.
  split.
  - intros [Hin Hw]. split; [done|].
    destruct (work_date record) as [d|]; [|done].
    exists d. apply andb_true_iff in Hw as [H1 H2].
    apply Z.leb_le in H1, H2. done.
  - intros [Hin (d & -> & H1 & H2)]. split; [done|].
    apply andb_true_iff. split; by apply Z.leb_le.
Qed.

Lemma filter_closed_interval_witness :
  _filter_reports_by_date
    (VList (map VDict [dated "2024-02-29"; dated "2024-03-01";
                       dated "2024-03-15"; dated "2024-03-16"]))
    "2024-03-01" "2024-03-15"
  = Ok (map VDict
          (List.filter (in_window (MkDate 2024 3 1) (MkDate 2024 3 15))
                       [dated "2024-02-29"; dated "2024-03-01";
                        dated "2024-03-15"; dated "2024-03-16"]))
  ∧ ∀ record,
      In record (List.filter (in_window (MkDate 2024 3 1) (MkDate 2024 3 15))
                   [dated "2024-02-29"; dated "2024-03-01";
                    dated "2024-03-15"; dated "2024-03-16"])
      ↔ In record [dated "2024-02-29"; dated "2024-03-01";
                   dated "2024-03-15"; dated "2024-03-16"]
        ∧ ∃ d, work_date record = Some d
               ∧ toordinal (MkDate 2024 3 1) ≤ toordinal d
                 ≤ toordinal (MkDate 2024 3 15).
Proof. apply filter_closed_interval; reflexivity. Defined.

(** The bounds are kept, their outer neighbours are not. *)
Example filter_keeps_bounds_only :
  _filter_reports_by_date
    (VList (map VDict [dated "2024-02-29"; dated "2024-03-01";
                       dated "2024-03-15"; dated "2024-03-16"]))
    "2024-03-01" "2024-03-15"
  = Ok [VDict (dated "2024-03-01"); VDict (dated "2024-03-15")].
Proof. reflexivity. Qed.

Example filter_shorter_window :
  _filter_reports_by_date (VList [VDict (dated "2024-03-15")])
                          "2024-03-01" "2024-03-14"
  = Ok [].
Proof. reflexivity. Qed.

(** A record on the day before the first day, or on the day after the
    last, is never kept. *)
Lemma outside_by_one_day (start_day end_day d : date) (record : dict) :
  work_date record = Some d →
  toordinal d = toordinal start_day - 1 ∨ toordinal d = toordinal end_day + 1 →
  in_window start_day end_day record = false.
Proof.
  intros Hd Hout. unfold in_window. rewrite Hd.
  apply andb_false_iff.
  destruct Hout as [-> | ->]; [left|right]; apply Z.leb_gt; lia.
Qed.

(** *** Records without a usable date *)

Example date_missing : work_date [("schedule_id", VInt 77)] = None.
Proof. reflexivity. Qed.
Example date_null : work_date [("date_work", VNone)] = None.
Proof. reflexivity. Qed.
Example date_not_a_string : work_date [("date_work", VInt 20240315)] = None.
Proof. reflexivity. Qed.
Example date_garbled : work_date [("date_work", VStr "15/03/2024")] = None.
Proof. reflexivity. Qed.
Example date_with_time : work_date [("date_work", VStr "2024-03-15 08:00:00")] = None.
Proof. reflexivity. Qed.

Lemma filter_has_date (start_day end_day : date) (records : list dict) :
  List.filter (in_window start_day end_day) (List.filter has_date records)
  = List.filter (in_window start_day end_day) records.
Proof.
  induction records as [|r records IH]; [done|].
  cbn [List.filter].
  replace (has_date r)
    with (match work_date r with Some _ => true | None => false end)
    by reflexivity.
  replace (in_window start_day end_day r)
    with (match work_date r with
          | Some d => Z.leb (toordinal start_day) (toordinal d)
                      && Z.leb (toordinal d) (toordinal end_day)
          | None => false
          end) by reflexivity.
  destruct (work_date r) as [d|] eqn:E; [|done].
  cbn [List.filter]. unfold in_window at 1. rewrite E, IH. done.
Qed.

(** C7. With bounds that parse, the filter returns (it does not raise)
    for every list of records; a record whose [date_work] is missing,
    null, not a string or not a date in the format is not in the
    result, and the result is the one obtained from the list without
    such records. *)
Theorem filter_skips_undated (records : list dict)
    (start_str end_str : string) (start_day end_day : date)
    (Hstart : parse start_str = Ok start_day)
    (Hend : parse end_str = Ok end_day) :
  ∃ kept,
    _filter_reports_by_date (VList (map VDict records)) start_str end_str
    = Ok (map VDict kept)
    ∧ Forall (λ record, has_date record = true) kept
    ∧ _filter_reports_by_date
        (VList (map VDict (List.filter has_date records))) start_str end_str
      = Ok (map VDict kept).
Proof.
  exists (List.filter (in_window start_day end_day) records).
  split; [by apply filter_reports_records|]. split.
  - apply Forall_forall. intros r Hr%list_elem_of_In.
    apply List.filter_In in Hr as [_ Hw].
    unfold in_window in Hw. unfold has_date.
    destruct (work_date r); done.
  - rewrite (filter_reports_records _ _ _ start_day end_day) by done.
    by rewrite filter_has_date.
Qed.

Lemma filter_skips_undated_witness :
  ∃ kept,
    _filter_reports_by_date
      (VList (map VDict [[("schedule_id", VInt 1)];
                         [("date_work", VNone)];
                         dated "2024-03-10";
                         [("date_work", VStr "10 March")]]))
      "2024-03-01" "2024-03-15"
    = Ok (map VDict kept)
    ∧ Forall (λ record, has_date record = true) kept
    ∧ _filter_reports_by_date
        (VList (map VDict (List.filter has_date
                             [[("schedule_id", VInt 1)];
                              [("date_work", VNone)];
                              dated "2024-03-10";
                              [("date_work", VStr "10 March")]])))
        "2024-03-01" "2024-03-15"
      = Ok (map VDict kept).
Proof.
  apply (filter_skips_undated _ _ _ (MkDate 2024 3 1) (MkDate 2024 3 15));
    reflexivity.
Defined.

Example filter_drops_undated :
  _filter_reports_by_date
    (VList (map VDict [[("schedule_id", VInt 1)];
                       [("date_work", VNone)];
                       dated "2024-03-10";
                       [("date_work", VStr "10 March")]]))
    "2024-03-01" "2024-03-15"
  = Ok [VDict (dated "2024-03-10")].
Proof. reflexivity. Qed.

End DateFacts.

(** ** The pipelines *)

Module PipelineFacts.
Import Py Date DatabaseHandler PestCareClient Spec PoolSpec RunSpec Sample Helpers.
Import DatabaseHandlerFacts SanitizeFacts.
Local Open Scope Z_scope.

(** *** Running a method *)

Lemma bind_run {A B} (m : M A) (f : A → M B) (s : state) :
  (m ≫= f) s
  = match m s with
    | (Ok a, s') => f a s'
    | (Raise e, s') => (Raise e, s')
    end.
Proof. reflexivity. Qed.

Lemma with_trace_same (s : state) : with_trace (st_trace s) s = s.
Proof. by destruct s. Qed.

(** A request made by [_fetch_api_data] leaves one event and nothing
    else, whether it returns or raises. *)
Lemma fetch_run (env : environment) (endpoint : string) (payload : value)
    (s : state) :
  ∃ r, _fetch_api_data env endpoint VNone POST payload s
       = (r, with_trace (st_trace s ++ [EvRequest POST endpoint payload]) s).
Proof.
  cbv [_fetch_api_data try_except mbind M_bind mret M_ret gets emit lift].
  destruct (http_json env (st_trace s) POST endpoint payload) as [data|e].
  - destruct (as_dict data) as [d|e]; [|destruct e]; eauto.
  - destruct e; eauto.
Qed.

Lemma lookup_sanitize_other (report : dict) (key : string) :
  key ∉ list_keys →
  lookup_key key (_sanitize_report_data report) = lookup_key key report.
Proof. intros. by apply (fold_normalize_other list_keys). Qed.

Ltac not_a_list_key :=
  unfold list_keys; rewrite !not_elem_of_cons;
  repeat split; try discriminate; apply not_elem_of_nil.

(** The three fields the PDF pipeline reads are the ones the record
    came with. *)
Lemma pdf_fields (report : dict) (uploaded : value) :
  get "schedule_id" (_sanitize_report_data report) = get "schedule_id" report
  ∧ get_default "employee_name" (VStr "Unknown_Technician")
                (_sanitize_report_data report)
    = get_default "employee_name" (VStr "Unknown_Technician") report
  ∧ get_default "date_work" (VStr "nodate")
      (setitem "uploaded_files" uploaded (_sanitize_report_data report))
    = get_default "date_work" (VStr "nodate") report.
Proof.
  unfold get, get_default.
  rewrite lookup_setitem_ne by discriminate.
  rewrite !lookup_sanitize_other by not_a_list_key. done.
Qed.

(** C3. A report whose PDF filename and category are already in the
    history store is passed over: the turn of the loop makes at most
    the one request for the report's file manifest, and nothing else:
    no log line, no directory, no call of the composer, no page, no
    PDF file; the store and the browser are as before, and the count
    comes back unchanged. (When the manifest request itself raises, the
    turn raises that exception, with the same state.) *)
Theorem pdf_step_skips_recorded (env : environment)
    (client_address branch_name : value) (client_name output_folder : string)
    (count : Z) (report : dict) (category : string) (s : state)
    (Hcategory :
       category_at_pdf
         (get_default "employee_name" (VStr "Unknown_Technician") report)
         client_name = Ok category)
    (Hrecorded :
       is_already_downloaded
         (pdf_filename env client_name
            (get_default "date_work" (VStr "nodate") report)
            (get "schedule_id" report))
         category (st_db s) = true) :
  let manifest :=
    EvRequest POST "/web/api/schedule/file-uploaded"
      (VDict [("schedule_id", get "schedule_id" report); ("type", VStr "sts")])
  in
  ∃ r evs,
    pdf_step env client_address branch_name client_name output_folder
             count (VDict report) s
    = (r, with_trace (st_trace s ++ evs) s)
    ∧ (evs = [] ∨ evs = [manifest])
    ∧ (r = Ok count
       ∨ ∃ e, r = Raise e
              ∧ fst (_fetch_api_data env "/web/api/schedule/file-uploaded"
                       VNone POST
                       (VDict [("schedule_id", get "schedule_id" report);
                               ("type", VStr "sts")]) s) = Raise e).
Proof.
  intros manifest. unfold pdf_step.
  rewrite bind_run. cbn [lift as_dict].
  destruct (pdf_fields report VNone) as (Hid & Hname & _).
  rewrite Hid, Hname.
  destruct (truthy (get "schedule_id" report)) eqn:Htruthy; cbn [negb].
  - rewrite bind_run.
    destruct (fetch_run env "/web/api/schedule/file-uploaded"
                (VDict [("schedule_id", get "schedule_id" report);
                        ("type", VStr "sts")]) s) as [r Hr].
    rewrite Hr. destruct r as [uploaded|e].
    + destruct (pdf_fields report (or_else uploaded (VList []))) as (_ & _ & Hd).
      rewrite Hd. rewrite bind_run. cbn [lift]. rewrite Hcategory.
      rewrite bind_run. unfold db_is_already_downloaded. cbn [gets st_db with_trace].
      rewrite Hrecorded.
      exists (Ok count), [manifest]. repeat split; auto.
    + exists (Raise e), [manifest]. cbn [fst]. repeat split; eauto.
  - exists (Ok count), []. rewrite app_nil_r, with_trace_same.
    repeat split; auto.
Qed.

Lemma pdf_step_skips_recorded_witness :
  ∃ r evs,
    pdf_step (sample_env true Streamed) (VStr "Jl. Ijen 1") (VStr "Malang")
             "Acme, Inc." "out" 0 (VDict sample_report)
             (logged_in rendered_once)
    = (r, with_trace (st_trace (logged_in rendered_once) ++ evs)
                     (logged_in rendered_once))
    ∧ (evs = []
       ∨ evs = [EvRequest POST "/web/api/schedule/file-uploaded"
                  (VDict [("schedule_id", get "schedule_id" sample_report);
                          ("type", VStr "sts")])])
    ∧ (r = Ok 0
       ∨ ∃ e, r = Raise e
              ∧ fst (_fetch_api_data (sample_env true Streamed)
                       "/web/api/schedule/file-uploaded" VNone POST
                       (VDict [("schedule_id", get "schedule_id" sample_report);
                               ("type", VStr "sts")])
                       (logged_in rendered_once)) = Raise e).
Proof.
  apply (pdf_step_skips_recorded (sample_env true Streamed) _ _ _ _ _ _
           "Budi S/Acme Inc/STS Reports"); reflexivity.
Defined.

Example pdf_step_on_recorded_report :
  pdf_step (sample_env true Streamed) (VStr "Jl. Ijen 1") (VStr "Malang")
           "Acme, Inc." "out" 0 (VDict sample_report) (logged_in rendered_once)
  = (Ok 0,
     with_trace [EvRequest POST "/web/api/schedule/file-uploaded"
                   (VDict [("schedule_id", VInt 77); ("type", VStr "sts")])]
                (logged_in rendered_once)).
Proof. reflexivity. Qed.

(** *** The download pool *)






(** A batch of two jobs in the sample world when the transfer breaks
    off, and when the file cannot be written: nothing is recorded, each
    job is reported, and the second job runs after the first failed. *)
Example pool_transport_failure :
  let jobs := [FileInfo "https://files/y.png" "ReportImage_77_5.png"
                        (VStr "Budi S.") "Acme, Inc.";
               FileInfo "https://files/z.png" "ReportImage_77_6.png"
                        (VStr "Budi S.") "Acme, Inc."] in
  let run := run_pool (sample_env true StreamFailed) "out" jobs
                      (logged_in fresh) in
  fst run = Ok 0
  ∧ st_db (snd run) = fresh
  ∧ log_lines (st_trace (snd run))
    = ["      -> FAILED (Image): ReportImage_77_5.png";
       "      -> FAILED (Image): ReportImage_77_6.png"].
Proof. repeat split. Qed.

Example pool_disk_failure :
  let jobs := [FileInfo "https://files/y.png" "ReportImage_77_5.png"
                        (VStr "Budi S.") "Acme, Inc.";
               FileInfo "https://files/z.png" "ReportImage_77_6.png"
                        (VStr "Budi S.") "Acme, Inc."] in
  let run := run_pool (sample_env true WriteFailed) "out" jobs
                      (logged_in fresh) in
  fst run = Ok 0
  ∧ st_db (snd run) = fresh
  ∧ log_lines (st_trace (snd run))
    = ["      -> ERROR downloading ReportImage_77_5.png: OSError";
       "      -> ERROR downloading ReportImage_77_6.png: OSError"].
Proof. repeat split. Qed.

(** *** A run without document production *)

Lemma quiet_ret {A} (a : A) : quiet (mret a).
Proof. intros s. exists []. by rewrite app_nil_r. Qed.

Lemma quiet_lift {A} (r : result A) : quiet (lift r).
Proof. intros s. exists []. by rewrite app_nil_r. Qed.

Lemma quiet_gets {A} (f : state → A) : quiet (gets f).
Proof. intros s. exists []. by rewrite app_nil_r. Qed.

Lemma quiet_emit (e : event) : is_document_event e = false → quiet (emit e).
Proof. intros He s. exists [e]. split; [done|]. by constructor. Qed.

Lemma quiet_log (line : string) : quiet (log_callback line).
Proof. by apply quiet_emit. Qed.

Lemma quiet_bind {A B} (m : M A) (f : A → M B) :
  quiet m → (∀ a, quiet (f a)) → quiet (m ≫= f).
Proof.
  intros Hm Hf s. rewrite bind_run.
  destruct (Hm s) as (evs1 & H1 & F1).
  destruct (m s) as [[a|e] s1]; cbn [snd] in *.
  - destruct (Hf a s1) as (evs2 & H2 & F2).
    exists (evs1 ++ evs2)%list. rewrite H2, H1, app_assoc.
    split; [done|]. by apply Forall_app.
  - eauto.
Qed.

Lemma quiet_try {A} (body : M A) (handler : exn → option (M A)) :
  quiet body → (∀ e h, handler e = Some h → quiet h) →
  quiet (try_except body handler).
Proof.
  intros Hb Hh s. unfold try_except.
  destruct (Hb s) as (evs1 & H1 & F1).
  destruct (body s) as [[a|e] s1]; cbn [snd] in *; [eauto|].
  destruct (handler e) as [h|] eqn:E; [|eauto].
  destruct (Hh e h E s1) as (evs2 & H2 & F2).
  exists (evs1 ++ evs2)%list. rewrite H2, H1, app_assoc.
  split; [done|]. by apply Forall_app.
Qed.

Lemma quiet_for_each {A B} (body : B → A → M B) (xs : list A) :
  (∀ acc x, quiet (body acc x)) → ∀ acc, quiet (for_each body xs acc).
Proof.
  intros Hbody. induction xs as [|x xs IH]; intros acc; cbn [for_each].
  - apply quiet_ret.
  - apply quiet_bind; [apply Hbody|apply IH].
Qed.

Lemma quiet_no_trace {A} (m : M A) :
  (∀ s, st_trace (snd (m s)) = st_trace s) → quiet m.
Proof. intros H s. exists []. by rewrite H, app_nil_r. Qed.

Lemma quiet_add_record (env : environment) (f c u : string) :
  quiet (db_add_download_record env f c u).
Proof.
  apply quiet_no_trace. intros s. unfold db_add_download_record.
  destruct (add_download_record _ _ _ _ _); done.
Qed.

(** Splits the method in the goal along its binds and branches. *)
Ltac quiet_step :=
  lazymatch goal with
  | |- quiet (mret _) => apply quiet_ret
  | |- quiet (lift _) => apply quiet_lift
  | |- quiet (gets _) => apply quiet_gets
  | |- quiet (log_callback _) => apply quiet_log
  | |- quiet (emit _) => by apply quiet_emit
  | |- quiet (db_add_download_record _ _ _ _) => apply quiet_add_record
  | |- quiet (db_is_already_downloaded _ _) => apply quiet_gets
  | |- quiet (_ ≫= _) => apply quiet_bind; [|intros ?]
  | |- quiet (try_except _ _) =>
      apply quiet_try; [|intros [] ? ?; simplify_eq]
  | |- quiet (for_each _ _ _) => apply quiet_for_each; intros ? ?
  | |- quiet (if ?b then _ else _) => destruct b
  | |- quiet (match ?x with _ => _ end) => destruct x
  | |- quiet (let _ := _ in _) => cbv zeta
  end.

Lemma quiet_fetch (env : environment) endpoint params method payload :
  quiet (_fetch_api_data env endpoint params method payload).
Proof. unfold _fetch_api_data. repeat quiet_step. Qed.

Lemma quiet_makedirs (env : environment) path : quiet (os_makedirs env path).
Proof. unfold os_makedirs. repeat quiet_step. Qed.

Lemma quiet_worker (env : environment) job folder :
  quiet (_download_image_worker env job folder).
Proof.
  unfold _download_image_worker.
  repeat first [apply quiet_makedirs | quiet_step].
Qed.

Lemma quiet_collect (env : environment) folder count job :
  quiet (collect env folder count job).
Proof.
  unfold collect. repeat first [apply quiet_worker | quiet_step].
Qed.

Lemma quiet_images (env : environment) reports client_name folder workers :
  quiet (_process_images_for_reports env reports client_name folder workers).
Proof.
  unfold _process_images_for_reports, run_pool, scan_report, scan_file.
  repeat first [apply quiet_collect | apply quiet_fetch | quiet_step].
Qed.

Section WithoutPdfs.
Variables (env : environment) (max_workers : Z)
          (output_folder start_date end_date : string)
          (selected_tech_ids : value) (download_images : bool).

Lemma quiet_contract client_name totals contract :
  quiet (process_contract env max_workers output_folder start_date end_date
           selected_tech_ids client_name false download_images totals contract).
Proof.
  unfold process_contract.
  repeat first [apply quiet_images | apply quiet_fetch | quiet_step].
Qed.

Lemma quiet_client n acc item :
  quiet (process_client env max_workers output_folder start_date end_date
           selected_tech_ids n false download_images acc item).
Proof.
  unfold process_client.
  repeat first [apply quiet_contract | apply quiet_fetch | quiet_step].
Qed.

Lemma quiet_sync_loop clients_dict :
  quiet (sync_loop env max_workers output_folder start_date end_date
           selected_tech_ids clients_dict false download_images).
Proof.
  unfold sync_loop. repeat first [apply quiet_client | quiet_step].
Qed.

Lemma returns_ret {A} (Q : A → Prop) (a : A) : Q a → returns Q (mret a).
Proof. intros H s a' s' [= <- _]. done. Qed.

Lemma returns_bind {A B} (Q : B → Prop) (m : M A) (f : A → M B) :
  (∀ a, returns Q (f a)) → returns Q (m ≫= f).
Proof.
  intros Hf s b s'. rewrite bind_run.
  destruct (m s) as [[a|e] s1]; [apply Hf|done].
Qed.

Lemma returns_bind_with {A B} (P : A → Prop) (Q : B → Prop)
    (m : M A) (f : A → M B) :
  returns P m → (∀ a, P a → returns Q (f a)) → returns Q (m ≫= f).
Proof.
  intros Hm Hf s b s'. rewrite bind_run.
  destruct (m s) as [[a|e] s1] eqn:E; [|done].
  apply Hf. by eapply Hm.
Qed.

Lemma returns_for_each {A B} (Q : B → Prop) (body : B → A → M B)
    (xs : list A) :
  (∀ acc x, Q acc → returns Q (body acc x)) →
  ∀ acc, Q acc → returns Q (for_each body xs acc).
Proof.
  intros Hbody. induction xs as [|x xs IH]; intros acc Hacc; cbn [for_each].
  - by apply returns_ret.
  - eapply returns_bind_with; [by apply Hbody|]. intros a Ha. by apply IH.
Qed.

(** Without PDFs a contract leaves the PDF counter as it finds it. *)
Lemma contract_keeps_pdf_count client_name totals contract :
  returns (λ t, snd t = snd totals)
    (process_contract env max_workers output_folder start_date end_date
       selected_tech_ids client_name false download_images totals contract).
Proof.
  unfold process_contract.
  apply returns_bind. intros c.
  destruct (negb (truthy (get "id" c))); [by apply returns_ret|].
  cbv zeta. apply returns_bind. intros full. apply returns_bind. intros sts.
  destruct (negb (truthy sts)); [by apply returns_ret|].
  apply returns_bind. intros [|r rs]; [by apply returns_ret|].
  apply returns_bind. intros _. apply returns_bind. intros total_images.
  apply (returns_bind_with (λ p, p = snd totals)).
  - by apply returns_ret.
  - intros p ->. by apply returns_ret.
Qed.

Lemma client_keeps_pdf_count n acc item :
  returns (λ a, snd (snd a) = snd (snd acc))
    (process_client env max_workers output_folder start_date end_date
       selected_tech_ids n false download_images acc item).
Proof.
  unfold process_client. cbv zeta.
  apply returns_bind. intros _. apply returns_bind. intros contracts.
  destruct (negb (truthy contracts)).
  - apply returns_bind. intros _. by apply returns_ret.
  - apply returns_bind. intros cs.
    apply (returns_bind_with (λ t, snd t = snd (snd acc))).
    + apply returns_for_each; [|done].
      intros totals contract <-. apply contract_keeps_pdf_count.
    + intros t Ht. by apply returns_ret.
Qed.

Lemma sync_loop_no_pdfs clients_dict :
  returns (λ t, snd t = 0)
    (sync_loop env max_workers output_folder start_date end_date
       selected_tech_ids clients_dict false download_images).
Proof.
  unfold sync_loop.
  apply (returns_bind_with (λ a, snd (snd a) = 0)).
  - apply returns_for_each; [|done].
    intros acc item <-. apply client_keeps_pdf_count.
  - intros a Ha. by apply returns_ret.
Qed.

(** C4, amended. When the browser cannot be started in a run that
    asked for PDFs, the run goes on as the loop of a run without PDFs:
    from the state in which the failure was logged it is the loop with
    PDF production off, so the images are produced as they are when no
    PDF was asked for; that loop leaves no event of document production
    (no call of the composer, no page, no PDF file), the PDF counter is
    0 when it ends, and the summary that follows is the rule, the
    closing line and the image count when images were asked for: it has
    no line about documents. *)
Theorem failed_browser_disables_pdfs
    (token : string) (clients_dict : list (Z * client_record))
    (s s0 s1 : state)
    (Hlogin : st_auth_token s = Some token)
    (Hclients : _sync_clients env s = (Ok clients_dict, s0))
    (Hsome : clients_dict ≠ [])
    (Hbrowser : _get_browser env s0 = (Ok false, s1)) :
  let s2 :=
    with_trace
      (st_trace s1
       ++ [EvLog "Could not start browser. PDF downloads will be skipped."])
      s1 in
  let images_only :=
    sync_loop env max_workers output_folder start_date end_date
              selected_tech_ids clients_dict false download_images in
  (∃ evs, st_trace (snd (images_only s2)) = (st_trace s2 ++ evs)%list
          ∧ Forall (λ e, is_document_event e = false) evs)
  ∧ match images_only s2 with
    | (Ok totals, s3) =>
      snd totals = 0
      ∧ fetch_and_download_all_data env max_workers output_folder
          start_date end_date selected_tech_ids true download_images s
        = (Ok tt,
           with_trace
             (st_trace s3
              ++ summary_without_documents download_images (fst totals))
             s3)
    | (Raise e, s3) =>
      fetch_and_download_all_data env max_workers output_folder
        start_date end_date selected_tech_ids true download_images s
      = (Raise e, s3)
    end.
Proof.
  intros s2 images_only.
  split; [apply quiet_sync_loop|].
  assert (fetch_and_download_all_data env max_workers output_folder
            start_date end_date selected_tech_ids true download_images s
          = (images_only
               ≫= summary false download_images) s2) as Hrun.
  { unfold fetch_and_download_all_data. rewrite bind_run.
    cbn [gets]. rewrite Hlogin. rewrite bind_run, Hclients.
    destruct clients_dict as [|c cs]; [done|].
    unfold run_with_clients. rewrite bind_run.
    rewrite (bind_run (_get_browser env)), Hbrowser. reflexivity. }
  rewrite Hrun, bind_run.
  destruct (images_only s2) as [[totals|e] s3] eqn:Hloop; [|done].
  split; [by eapply sync_loop_no_pdfs|].
  unfold summary, summary_without_documents.
  cbv [mbind M_bind mret M_ret log_callback emit].
  destruct download_images; cbn [with_trace st_trace st_db st_browser
    st_chrome_path st_auth_token st_account_info];
    rewrite <- ?app_assoc; reflexivity.
Qed.

End WithoutPdfs.

(** C4, counterexample. PDFs and images are asked for and the browser
    does not start. The run ends with the summary of a run that was
    asked for images only: no line reports a number of documents. *)
Lemma failed_browser_summary_omits_documents :
  _get_browser (sample_env false Streamed) clients_synced
  = (Ok false, browser_tried)
  ∧ fst failed_browser_run = Ok tt
  ∧ log_lines (st_trace (snd failed_browser_run))
    = ["Successfully synced 1 clients.";
       "Initializing headless browser for PDF generation...";
       " - User-defined Chrome path not found or not set. Trying to auto-detect...";
       " - Could not auto-detect Chrome. Falling back to pyppeteer's default (may download Chromium).";
       " - Using browser from: chromium";
       "FATAL: Could not launch browser. PDFs cannot be generated. Error: BrowserError";
       "TIP: Please ensure Google Chrome is installed and the path is set correctly in 'Browser Settings...'";
       "Could not start browser. PDF downloads will be skipped.";
       newline ++ "[1/1] Processing Client: Acme, Inc.";
       "  - Found 1 STS report(s) in date range for Contract ID 10.";
       "    - Found 1 new images. Starting parallel download...";
       "      -> SUCCESS (Image): ReportImage_77_5.png";
       newline ++ "-------------------------------------------";
       "Smart Sync process finished.";
       "Downloaded 1 new image(s)."].
Proof. repeat split; vm_compute; reflexivity. Qed.

Lemma failed_browser_disables_pdfs_witness :
  let s2 :=
    with_trace
      (st_trace browser_tried
       ++ [EvLog "Could not start browser. PDF downloads will be skipped."])
      browser_tried in
  let images_only :=
    sync_loop (sample_env false Streamed) 4 "out" "2024-03-01" "2024-03-31"
              (VList [VInt 9]) [(1, ClientRecord 1 "Acme, Inc.")] false true in
  (∃ evs, st_trace (snd (images_only s2)) = (st_trace s2 ++ evs)%list
          ∧ Forall (λ e, is_document_event e = false) evs)
  ∧ match images_only s2 with
    | (Ok totals, s3) =>
      snd totals = 0
      ∧ fetch_and_download_all_data (sample_env false Streamed) 4 "out"
          "2024-03-01" "2024-03-31" (VList [VInt 9]) true true
          (logged_in fresh)
        = (Ok tt,
           with_trace
             (st_trace s3 ++ summary_without_documents true (fst totals)) s3)
    | (Raise e, s3) =>
      fetch_and_download_all_data (sample_env false Streamed) 4 "out"
        "2024-03-01" "2024-03-31" (VList [VInt 9]) true true (logged_in fresh)
      = (Raise e, s3)
    end.
Proof.
  apply (failed_browser_disables_pdfs (sample_env false Streamed) 4 "out"
           "2024-03-01" "2024-03-31" (VList [VInt 9]) true
           "token" [(1, ClientRecord 1 "Acme, Inc.")]
           (logged_in fresh) clients_synced browser_tried).
  - reflexivity.
  - vm_compute. reflexivity.
  - discriminate.
  - vm_compute. reflexivity.
Defined.

End PipelineFacts.

(** ** More on the history store *)

Module StoreFacts.
Import DatabaseHandler DatabaseHandlerFacts StoreNotions.
Local Open Scope Z_scope.




Lemma add_download_record_found (now : Z) (f c u : string) (d : db) :
  ∃ d', add_download_record now f c u d = Ok d'
        ∧ is_already_downloaded f c d' = true
        ∧ (∀ f' c', (f, c) ≠ (f', c') →
             is_already_downloaded f' c' d' = is_already_downloaded f' c' d)
        ∧ clients d' = clients d.
Proof.
  destruct (add_download_record_ok now f c u d) as [d' Hadd].
  exists d'. split; [done|].
  destruct (add_download_record_cases _ _ _ _ _ _ Hadd)
    as [[Hseen ->]|[Hnew Hins]]; [done|].
  unfold insert_download_history in Hins.
  unfold is_already_downloaded in Hnew. rewrite Hnew in Hins.
  injection Hins as <-. unfold is_already_downloaded. cbn.
  repeat split.
  - rewrite existsb_app. cbn. rewrite key_matches_same.
    by rewrite orb_true_r.
  - intros f' c' Hne. rewrite existsb_app. cbn.
    rewrite key_matches_other by done. by rewrite !orb_false_r.
Qed.




Lemma run_op_ids (o : op) (d d' : db) :
  ids_in_order d → run_op o d = Ok d' →
  ids_in_order d'
  ∧ history_seq d ≤ history_seq d'
  ∧ Forall (λ r, r ∈ download_history d ∨ history_seq d < row_id r)
           (download_history d').
Proof.
  intros (Hnd & Hpos & Hle) Hrun.
  assert (Forall (λ r, r ∈ download_history d ∨ history_seq d < row_id r)
                 (download_history d)) as Hsame.
  { apply Forall_forall. auto. }
  destruct o; cbn in Hrun.
  1-4: injection Hrun as <-.
  - done.
  - destruct clients_data; done.
  - done.
  - done.
  - destruct (add_download_record_cases _ _ _ _ _ _ Hrun)
      as [[_ ->]|[_ Hins]]; [done|].
    unfold insert_download_history in Hins.
    destruct (existsb _ _); [done|]. injection Hins as <-.
    unfold ids_in_order. cbn [download_history history_seq].
    split; [split; [|split]|split].
    + rewrite map_app. apply NoDup_app. split; [done|]. split.
      * intros i Hi Hi'. cbn in Hi'.
        apply list_elem_of_singleton in Hi'. subst i.
        apply list_elem_of_fmap in Hi as (r & Hr & Hin).
        rewrite Forall_forall in Hle. specialize (Hle r Hin). cbn in Hr. lia.
      * apply NoDup_singleton.
    + lia.
    + apply Forall_app. split.
      * eapply Forall_impl; [exact Hle|]. cbn. intros; lia.
      * repeat constructor; cbn; lia.
    + lia.
    + apply Forall_app. split.
      * apply Forall_forall. intros r Hr. by left.
      * apply Forall_singleton. right. cbn. lia.
  - injection Hrun as <-. unfold ids_in_order. cbn.
    repeat split; try done; try lia. apply NoDup_nil_2.
Qed.

(** X4. Row ids come from a counter that only grows: after any run of
    handler calls on a store whose ids are in order, the ids are
    distinct and within the counter, the counter has not gone down,
    and every row that was not there before carries an id above the
    old counter; an id is not given out again after [clear_history]. *)
Theorem row_ids_never_reused (ops : list op) :
  ∀ (d d' : db) (Hids : ids_in_order d) (Hrun : run_ops ops d = Ok d'),
    ids_in_order d'
    ∧ history_seq d ≤ history_seq d'
    ∧ Forall (λ r, r ∈ download_history d ∨ history_seq d < row_id r)
             (download_history d').
Proof.
  induction ops as [|o ops IH]; intros d d' Hids Hrun.
  - injection Hrun as <-. repeat split; try apply Hids; try lia.
    apply Forall_forall. auto.
  - cbn in Hrun. destruct (run_op o d) as [d1|] eqn:Ho; [|done].
    destruct (run_op_ids _ _ _ Hids Ho) as (Hids1 & Hseq1 & Hrows1).
    destruct (IH _ _ Hids1 Hrun) as (Hids' & Hseq' & Hrows').
    split; [done|]. split; [lia|].
    eapply Forall_impl; [exact Hrows'|]. cbn.
    intros r [Hin|Hlt]; [|right; lia].
    rewrite Forall_forall in Hrows1.
    destruct (Hrows1 r Hin) as [?|?]; [by left|right; lia].
Qed.

Lemma row_ids_never_reused_witness :
  ids_in_order (Db [HistoryRow 2 "b.jpg" "T/C/Foto" "u2" 7] 2 ∅)
  ∧ history_seq (create_tables None)
    ≤ history_seq (Db [HistoryRow 2 "b.jpg" "T/C/Foto" "u2" 7] 2 ∅)
  ∧ Forall (λ r, r ∈ download_history (create_tables None)
                 ∨ history_seq (create_tables None) < row_id r)
           (download_history (Db [HistoryRow 2 "b.jpg" "T/C/Foto" "u2" 7] 2 ∅)).
Proof.
  apply (row_ids_never_reused
           [OpAddDownloadRecord 3 "a.jpg" "T/C/Foto" "u1"; OpClearHistory;
            OpAddDownloadRecord 7 "b.jpg" "T/C/Foto" "u2"]).
  - unfold ids_in_order. cbn. repeat split; [apply NoDup_nil_2|lia|constructor].
  - reflexivity.
Defined.

End StoreFacts.

(** ** More on the date filter and on the sanitised report *)

Module FilterFacts.
Import Py Date PestCareClient Spec Helpers FilterNotions.
Import SanitizeFacts DateFacts.
Local Open Scope Z_scope.

Lemma filter_loop_values (start_date end_date : date) (reports : list value) :
  ∀ filtered out,
    filter_loop start_date end_date reports filtered = Ok out →
    out = (filtered ++ List.filter (kept_by start_date end_date) reports)%list.
Proof.
  induction reports as [|v reports IH]; intros filtered out.
  - cbn. intros [= <-]. by rewrite app_nil_r.
  - cbn [filter_loop List.filter].
    destruct v as [| | | | |d]; try done.
    cbn [as_dict mbind result_bind kept_by]. unfold passes.
    destruct (strptime_date (get "date_work" d)) as [day|e] eqn:E.
    + destruct (date_le start_date day && date_le day end_date).
      * intros H%IH. by rewrite H, <- app_assoc.
      * apply IH.
    + destruct (strptime_date_raises _ _ E) as [-> | ->]; apply IH.
Qed.

Lemma filter_loop_all_kept (start_date end_date : date) (l : list value) :
  Forall (λ v, kept_by start_date end_date v = true) l →
  ∀ filtered,
    filter_loop start_date end_date l filtered = Ok (filtered ++ l)%list.
Proof.
  induction 1 as [|v l Hv _ IH]; intros filtered.
  - cbn. by rewrite app_nil_r.
  - cbn [filter_loop]. destruct v as [| | | | |d]; try done.
    cbn [as_dict mbind result_bind kept_by] in *. unfold passes in Hv.
    destruct (strptime_date (get "date_work" d)) as [day|e]; [|done].
    rewrite Hv, IH. by rewrite <- app_assoc.
Qed.

Lemma filter_reports_values (reports kept : list value)
    (start_str end_str : string) :
  _filter_reports_by_date (VList reports) start_str end_str = Ok kept →
  ∃ start_day end_day,
    parse start_str = Ok start_day ∧ parse end_str = Ok end_day
    ∧ kept = List.filter (kept_by start_day end_day) reports.
Proof.
  unfold _filter_reports_by_date. cbn [strptime_date iterate].
  destruct (parse start_str) as [s|]; [|done].
  destruct (parse end_str) as [e|]; [|done].
  cbn [mbind result_bind]. intros H%filter_loop_values.
  exists s, e. done.
Qed.

(** X5. The filter is idempotent: filtering what it returned, with
    the same bounds, returns the same list. *)
Theorem filter_idempotent (reports kept : list value)
    (start_str end_str : string)
    (Hkept : _filter_reports_by_date (VList reports) start_str end_str
             = Ok kept) :
  _filter_reports_by_date (VList kept) start_str end_str = Ok kept.
Proof.
  destruct (filter_reports_values _ _ _ _ Hkept) as (s & e & Hs & He & ->).
  unfold _filter_reports_by_date. cbn [strptime_date iterate].
  rewrite Hs, He. cbn [mbind result_bind].
  rewrite filter_loop_all_kept; [done|].
  apply Forall_forall. intros v Hv%list_elem_of_In.
  by apply List.filter_In in Hv as [_ Hv].
Qed.

Lemma filter_idempotent_witness :
  _filter_reports_by_date
    (VList [VDict (dated "2024-03-01"); VDict (dated "2024-03-15")])
    "2024-03-01" "2024-03-15"
  = Ok [VDict (dated "2024-03-01"); VDict (dated "2024-03-15")].
Proof.
  apply (filter_idempotent
           (map VDict [dated "2024-02-29"; dated "2024-03-01";
                       dated "2024-03-15"; dated "2024-03-16"])).
  reflexivity.
Defined.

Lemma filter_sublist {A} (p : A → bool) (l : list A) :
  List.filter p l `sublist_of` l.
Proof.
  induction l as [|x l IH]; cbn; [constructor|].
  destruct (p x); by constructor.
Qed.

(** X6. What the filter returns is taken from its input: the kept
    reports are a sublist of the given ones, the same objects in the
    same order, none added and none repeated. *)
Theorem filter_returns_sublist (reports kept : list value)
    (start_str end_str : string)
    (Hkept : _filter_reports_by_date (VList reports) start_str end_str
             = Ok kept) :
  kept `sublist_of` reports.
Proof.
  destruct (filter_reports_values _ _ _ _ Hkept) as (s & e & _ & _ & ->).
  apply filter_sublist.
Qed.

Lemma filter_returns_sublist_witness :
  [VDict (dated "2024-03-01"); VDict (dated "2024-03-15")]
  `sublist_of`
  map VDict [dated "2024-02-29"; dated "2024-03-01";
             dated "2024-03-15"; dated "2024-03-16"].
Proof.
  apply (filter_returns_sublist _ _ "2024-03-01" "2024-03-15").
  reflexivity.
Defined.

(** X7. A window whose end lies before its start keeps nothing: with
    the two dates swapped the filter returns the empty list for every
    list of records, and does not raise. *)
Theorem filter_inverted_window (records : list dict)
    (start_str end_str : string) (start_day end_day : date)
    (Hstart : parse start_str = Ok start_day)
    (Hend : parse end_str = Ok end_day)
    (Hinverted : toordinal end_day < toordinal start_day) :
  _filter_reports_by_date (VList (map VDict records)) start_str end_str
  = Ok [].
Proof.
  rewrite (filter_reports_records _ _ _ start_day end_day) by done.
  f_equal. induction records as [|r records IH]; [done|].
  cbn [List.filter]. unfold in_window at 1.
  destruct (work_date r) as [d|]; [|exact IH].
  destruct (Z.leb_spec (toordinal start_day) (toordinal d));
    destruct (Z.leb_spec (toordinal d) (toordinal end_day));
    cbn; try exact IH; lia.
Qed.

Lemma filter_inverted_window_witness :
  _filter_reports_by_date
    (VList (map VDict [dated "2024-03-01"; dated "2024-03-10";
                       dated "2024-03-15"]))
    "2024-03-15" "2024-03-01"
  = Ok [].
Proof.
  apply (filter_inverted_window _ _ _ (MkDate 2024 3 15) (MkDate 2024 3 1));
    [reflexivity|reflexivity|vm_compute; reflexivity].
Defined.

Lemma filter_loop_raises (start_date end_date : date) (before : list dict)
    (v : value) (rest : list value) :
  as_dict v = Raise AttributeError →
  ∀ filtered,
    filter_loop start_date end_date (map VDict before ++ v :: rest) filtered
    = Raise AttributeError.
Proof.
  intros Hv. induction before as [|r before IH]; intros filtered.
  - cbn [map app filter_loop]. rewrite Hv. done.
  - cbn [map app filter_loop as_dict mbind result_bind].
    destruct (strptime_date (get "date_work" r)) as [day|e] eqn:E.
    + destruct (date_le start_date day && date_le day end_date); apply IH.
    + destruct (strptime_date_raises _ _ E) as [-> | ->]; apply IH.
Qed.

(** X8. The loop catches [ValueError] and [TypeError] only: an element
    of the list that is not a record (a null, a number, a string, a
    list) makes the whole call raise [AttributeError], whatever the
    other elements are, although the records before it were fine. *)
Theorem filter_raises_on_non_record (before : list dict) (v : value)
    (rest : list value) (start_str end_str : string)
    (start_day end_day : date)
    (Hstart : parse start_str = Ok start_day)
    (Hend : parse end_str = Ok end_day)
    (Hshape : is_ok_dict v = false) :
  _filter_reports_by_date (VList (map VDict before ++ v :: rest))
                          start_str end_str
  = Raise AttributeError.
Proof.
  unfold _filter_reports_by_date. cbn [strptime_date iterate].
  rewrite Hstart, Hend. cbn [mbind result_bind].
  apply filter_loop_raises. by destruct v.
Qed.

Lemma filter_raises_on_non_record_witness :
  _filter_reports_by_date
    (VList (map VDict [dated "2024-03-10"] ++ VNone :: [VDict (dated "2024-03-11")]))
    "2024-03-01" "2024-03-15"
  = Raise AttributeError.
Proof.
  apply (filter_raises_on_non_record _ _ _ _ _
           (MkDate 2024 3 1) (MkDate 2024 3 15)); reflexivity.
Defined.

(** *** The sanitised report *)

Lemma normalize_when_list (report : dict) (key : string) :
  is_list (get key report) = true → normalize report key = report.
Proof. intros H. unfold normalize. by rewrite H. Qed.

Lemma fold_normalize_fixed (ks : list string) : ∀ report,
  Forall (λ k, is_list (get k report) = true) ks →
  fold_left normalize ks report = report.
Proof.
  induction ks as [|k ks IH]; intros report Hall; [done|].
  apply Forall_cons in Hall as [Hk Hks].
  cbn [fold_left]. rewrite normalize_when_list by done. by apply IH.
Qed.

(** X9. Sanitising is idempotent: sanitising a sanitised report
    gives the same dict again. *)
Theorem sanitize_idempotent (report : dict) :
  _sanitize_report_data (_sanitize_report_data report)
  = _sanitize_report_data report.
Proof.
  apply (fold_normalize_fixed list_keys).
  apply Forall_forall. intros k Hk. unfold get.
  change (_sanitize_report_data report)
    with (fold_left normalize list_keys report).
  by rewrite (fold_normalize_same list_keys).
Qed.

(** X27. A report whose five list fields are lists already comes back
    as the very same dict: no value is replaced and no key moves. *)
Theorem sanitize_leaves_well_formed (report : dict)
    (Hlists : forallb (λ k, is_list (get k report)) list_keys = true) :
  _sanitize_report_data report = report.
Proof.
  apply (fold_normalize_fixed list_keys).
  apply Forall_forall. intros k Hk%list_elem_of_In.
  rewrite forallb_forall in Hlists. by apply Hlists.
Qed.

Lemma sanitize_leaves_well_formed_witness :
  _sanitize_report_data
    [("schedule_id", VInt 7); ("report_detail_feedbacks", VList []);
     ("report_detail_treatments", VList [VStr "spray"]);
     ("report_detail_chemicals", VList []);
     ("report_detail_type_works", VList []); ("uploaded_files", VList [])]
  = [("schedule_id", VInt 7); ("report_detail_feedbacks", VList []);
     ("report_detail_treatments", VList [VStr "spray"]);
     ("report_detail_chemicals", VList []);
     ("report_detail_type_works", VList []); ("uploaded_files", VList [])].
Proof.
  apply sanitize_leaves_well_formed. reflexivity.
Defined.

Lemma keys_setitem (k : string) (v : value) (d : dict) :
  keys (setitem k v d)
  = (keys d ++ if absent_from d k then [k] else [])%list.
Proof.
  unfold absent_from, keys. induction d as [|[k' v'] d IH]; cbn.
  - done.
  - destruct (decide (k' = k)) as [->|Hne]; cbn.
    + by rewrite app_nil_r.
    + rewrite IH. by destruct (lookup_key k d).
Qed.

Lemma keys_normalize (report : dict) (key : string) :
  keys (normalize report key)
  = (keys report ++ if absent_from report key then [key] else [])%list.
Proof.
  unfold normalize. destruct (is_list (get key report)) eqn:E.
  - unfold absent_from. unfold get in E.
    destruct (lookup_key key report); [by rewrite app_nil_r|done].
  - apply keys_setitem.
Qed.

Lemma keys_fold_normalize (ks : list string) : ∀ report,
  NoDup ks →
  keys (fold_left normalize ks report)
  = (keys report ++ List.filter (absent_from report) ks)%list.
Proof.
  induction ks as [|k ks IH]; intros report Hnd.
  - cbn. by rewrite app_nil_r.
  - apply NoDup_cons in Hnd as [Hk Hnd].
    cbn [fold_left List.filter]. rewrite IH, keys_normalize by done.
    rewrite <- app_assoc. f_equal.
    assert (List.filter (absent_from (normalize report k)) ks
            = List.filter (absent_from report) ks) as ->.
    { apply List.filter_ext_in. intros k' Hk'%list_elem_of_In.
      unfold absent_from. rewrite normalize_other; [done|].
      intros ->. done. }
    by destruct (absent_from report k).
Qed.

(** X10. Sanitising keeps the keys of the report in their order and
    appends the missing list keys after them, in the order
    feedbacks, treatments, chemicals, type-works, uploaded files. *)
Theorem sanitize_key_order (report : dict) :
  keys (_sanitize_report_data report)
  = (keys report ++ List.filter (absent_from report) list_keys)%list.
Proof.
  apply (keys_fold_normalize list_keys).
  unfold list_keys. repeat (apply NoDup_cons; split;
    [rewrite ?not_elem_of_cons; repeat split; try discriminate;
     apply not_elem_of_nil|]).
  apply NoDup_nil_2.
Qed.

End FilterFacts.

(** ** More on the category path *)

Module PathFacts.
Import Py Date PestCareClient Spec Helpers PathNotions.
Import SanitizeFacts DateFacts.
Local Open Scope Z_scope.

Lemma chars_of_string (l : list ascii) :
  list_ascii_of_string (string_of_list_ascii l) = l.
Proof. induction l as [|a l IH]; cbn; congruence. Qed.

Lemma app_cons (a : ascii) (s t : string) :
  String a s ++ t = String a (s ++ t).
Proof. reflexivity. Qed.

Lemma app_empty (t : string) : "" ++ t = t.
Proof. reflexivity. Qed.

Lemma chars_app (s t : string) :
  list_ascii_of_string (s ++ t)
  = (list_ascii_of_string s ++ list_ascii_of_string t)%list.
Proof.
  induction s as [|a s IH]; [done|]. rewrite app_cons. cbn. congruence.
Qed.

Lemma forallb_drop_while {A} (p q : A → bool) (l : list A) :
  forallb p l = true → forallb p (drop_while q l) = true.
Proof.
  induction l as [|x l IH]; [done|]. cbn.
  intros [Hx Hl]%andb_true_iff. destruct (q x); [by apply IH|].
  cbn. by rewrite Hx, Hl.
Qed.

Lemma forallb_rev {A} (p : A → bool) (l : list A) :
  forallb p (rev l) = forallb p l.
Proof.
  induction l as [|x l IH]; [done|]. cbn.
  rewrite forallb_app, IH. cbn. rewrite andb_true_r. apply andb_comm.
Qed.

Lemma sanitize_allowed (s : string) : all_chars allowed (sanitize s) = true.
Proof.
  unfold all_chars, sanitize, trim_trailing_whitespace, strip_disallowed.
  rewrite !chars_of_string, forallb_rev.
  apply forallb_drop_while. rewrite forallb_rev.
  apply forallb_forall. intros a Ha. by apply List.filter_In in Ha as [_ Ha].
Qed.

Lemma allowed_no_sep (s : string) :
  all_chars allowed s = true → starts_with_sep s = false.
Proof.
  destruct s as [|a s]; [done|]. unfold all_chars. cbn.
  intros [Ha _]%andb_true_iff.
  destruct a as [[] [] [] [] [] [] [] []]; done.
Qed.

Lemma allowed_path_char (s : string) :
  all_chars allowed s = true → all_chars path_char s = true.
Proof.
  unfold all_chars. intros H. apply forallb_forall. intros a Ha.
  rewrite forallb_forall in H. unfold path_char. by rewrite (H a Ha).
Qed.

Lemma join2_path_chars (p b : string) :
  all_chars path_char p = true → all_chars path_char b = true →
  all_chars path_char (join2 p b) = true.
Proof.
  unfold join2, all_chars. intros Hp Hb.
  destruct (starts_with_sep b); [done|].
  destruct (bool_decide (p = "") || ends_with_sep p);
    rewrite !chars_app, !forallb_app, ?Hp, ?Hb; done.
Qed.

Lemma starts_app (p b : string) :
  starts_with_sep (p ++ b)
  = if bool_decide (p = "") then starts_with_sep b else starts_with_sep p.
Proof. destruct p; [done|]. by rewrite app_cons. Qed.

Lemma join2_no_sep (p b : string) :
  starts_with_sep p = false → starts_with_sep b = false →
  starts_with_sep (join2 p b) = false.
Proof.
  unfold join2. intros Hp Hb. rewrite Hb.
  destruct p as [|a p]; [done|]. cbn [bool_decide orb].
  destruct (_ || _); rewrite starts_app; done.
Qed.

Lemma prefix_app (p x : string) : String.prefix p (p ++ x) = true.
Proof.
  induction p as [|a p IH]; [by destruct x|].
  rewrite app_cons. cbn. destruct (ascii_dec a a); done.
Qed.

Lemma join2_under (folder b : string) :
  starts_with_sep b = false → String.prefix folder (join2 folder b) = true.
Proof.
  unfold join2. intros ->. destruct (_ || _); apply prefix_app.
Qed.

(** A category path built from sanitised names and a kind folder. *)
Lemma category_path_safe (technician client kind : string) :
  all_chars path_char kind = true → starts_with_sep kind = false →
  all_chars path_char (category_path technician client kind) = true
  ∧ starts_with_sep (category_path technician client kind) = false.
Proof.
  intros Hk Hs. unfold category_path, os_path_join. cbn [fold_left].
  pose proof (sanitize_allowed technician) as Ht.
  pose proof (sanitize_allowed client) as Hc.
  split.
  - repeat apply join2_path_chars; auto using allowed_path_char.
  - repeat apply join2_no_sep; auto using allowed_no_sep.
Qed.

Lemma category_sites (technician client : string) :
  category_at_enqueue (VStr technician) client
  = Ok (category_path technician client "Foto")
  ∧ category_at_pdf (VStr technician) client
    = Ok (category_path technician client "STS Reports").
Proof.
  unfold category_at_enqueue, category_at_pdf, category_path, sanitize.
  cbn [iterate mbind result_bind].
  rewrite !join_kept_chars. cbn [mbind result_bind].
  rewrite !rstrip_trim. done.
Qed.

(** X11. Whatever the technician and the client are called, the
    category path of an image and of a PDF is made of alphanumerics,
    blanks, underscores and the separator only and does not begin with
    the separator, so the directory the artifact goes to,
    [os.path.join(folder, category)], begins with the chosen folder:
    no name leads out of it. *)
Theorem category_stays_under_folder (technician client folder : string) :
  Forall
    (λ site : value → string → result string,
       ∃ category,
         site (VStr technician) client = Ok category
         ∧ all_chars path_char category = true
         ∧ starts_with_sep category = false
         ∧ String.prefix folder (os_path_join folder [category]) = true)
    [category_at_enqueue; category_at_pdf].
Proof.
  destruct (category_sites technician client) as [Hi Hp].
  destruct (category_path_safe technician client "Foto") as [Hi1 Hi2];
    [done|done|].
  destruct (category_path_safe technician client "STS Reports") as [Hp1 Hp2];
    [done|done|].
  repeat constructor; eexists; (split; [eassumption|]);
    repeat split; auto; by apply join2_under.
Qed.

Lemma last_char_app (p k : string) :
  k ≠ "" → last_char (p ++ k) = last_char k.
Proof.
  intros Hk. induction p as [|a p IH]; [done|].
  rewrite app_cons. cbn [last_char]. rewrite IH.
  destruct (p ++ k) eqn:E; [|done].
  destruct p; [by rewrite app_empty in E|by rewrite app_cons in E].
Qed.

Lemma join2_last (p k : string) :
  k ≠ "" → starts_with_sep k = false →
  last_char (join2 p k) = last_char k.
Proof.
  intros Hk Hs. unfold join2. rewrite Hs.
  destruct (_ || _); [by apply last_char_app|].
  rewrite last_char_app; [|by destruct k]. by apply (last_char_app "/").
Qed.

(** X12. The image pipeline and the PDF pipeline never use the same
    category: for any names, of any shape, the path computed at the
    image sites ends in "Foto" and the one of the PDF site in
    "STS Reports", so a history key of one pipeline is never a key of
    the other. *)
Theorem image_and_pdf_categories_differ
    (technician technician' : value) (client client' : string)
    (image_category pdf_category : string)
    (Himage : category_at_enqueue technician client = Ok image_category)
    (Hpdf : category_at_pdf technician' client' = Ok pdf_category) :
  image_category ≠ pdf_category.
Proof.
  assert (last_char image_category = Some "o"%char) as Hi.
  { unfold category_at_enqueue in Himage.
    destruct (iterate technician) as [tc|]; [|done].
    cbn [mbind result_bind] in Himage.
    destruct (join_kept tc) as [t|]; [|done].
    cbn [mbind result_bind iterate] in Himage.
    destruct (join_kept _) as [c|]; [|done].
    cbn [mbind result_bind] in Himage. injection Himage as <-.
    unfold os_path_join. cbn [fold_left]. by rewrite join2_last. }
  assert (last_char pdf_category = Some "s"%char) as Hp.
  { unfold category_at_pdf in Hpdf.
    destruct (iterate technician') as [tc|]; [|done].
    cbn [mbind result_bind] in Hpdf.
    destruct (join_kept tc) as [t|]; [|done].
    cbn [mbind result_bind iterate] in Hpdf.
    destruct (join_kept _) as [c|]; [|done].
    cbn [mbind result_bind] in Hpdf. injection Hpdf as <-.
    unfold os_path_join. cbn [fold_left]. by rewrite join2_last. }
  intros ->. rewrite Hi in Hp. done.
Qed.

Lemma image_and_pdf_categories_differ_witness :
  "Budi S/Acme Inc/Foto" ≠ "Budi S/Acme Inc/STS Reports".
Proof.
  apply (image_and_pdf_categories_differ (VStr "Budi S.") (VStr "Budi S.")
           "Acme, Inc." "Acme, Inc."); reflexivity.
Defined.

(** *** Dates written by [strftime] *)

Lemma digit_in_char (k : Z) :
  0 ≤ k ≤ 9 → digit_in 0 9 (digit_char k) = Some k.
Proof.
  intros Hk.
  assert (k = 0 ∨ k = 1 ∨ k = 2 ∨ k = 3 ∨ k = 4 ∨ k = 5 ∨ k = 6 ∨ k = 7
          ∨ k = 8 ∨ k = 9) as Hcases by lia.
  destruct Hcases as [->|[->|[->|[->|[->|[->|[->|[->|[->| ->]]]]]]]]];
    reflexivity.
Qed.

Lemma match_Y_formatted (y : Z) (tail : list ascii) :
  0 ≤ y ≤ 9999 →
  match_Y (list_ascii_of_string (four_digits y) ++ tail) = [(y, tail)].
Proof.
  intros Hy. unfold four_digits. cbn [list_ascii_of_string app match_Y].
  rewrite !digit_in_char by (Z.div_mod_to_equations; lia).
  do 2 f_equal. Z.div_mod_to_equations. lia.
Qed.

Lemma regex_matches_after_year (cs : list ascii) :
  regex_matches cs = ('(y, r1) ← match_Y cs; matches_after_year y r1).
Proof. reflexivity. Qed.

Lemma day_cases (d : Z) :
  1 ≤ d ≤ 31 →
  d = 1 ∨ d = 2 ∨ d = 3 ∨ d = 4 ∨ d = 5 ∨ d = 6 ∨ d = 7 ∨ d = 8 ∨ d = 9 ∨ d = 10 ∨ d = 11 ∨ d = 12 ∨ d = 13 ∨ d = 14 ∨ d = 15 ∨ d = 16 ∨ d = 17 ∨ d = 18 ∨ d = 19 ∨ d = 20 ∨ d = 21 ∨ d = 22 ∨ d = 23 ∨ d = 24 ∨ d = 25 ∨ d = 26 ∨ d = 27 ∨ d = 28 ∨ d = 29 ∨ d = 30 ∨ d = 31.
Proof. lia. Qed.

Lemma days_in_month_max (y m : Z) : days_in_month y m ≤ 31.
Proof.
  unfold days_in_month.
  destruct (Z.eqb m 2); [destruct (is_leap y); lia|].
  destruct (_ || _); lia.
Qed.

(** X13. A date written as [strftime('%Y-%m-%d')] writes it, as the
    window does for its default start and end dates, is read back by
    [strptime] as the same date: for every calendar day from the year
    1000 on, parsing the formatted date succeeds and returns it. *)
Theorem strftime_then_strptime (d : date)
    (Hvalid : valid d = true) (Hyear : 1000 ≤ year d) :
  parse (strftime_ymd d) = Ok d.
Proof.
  destruct d as [y m dd].
  destruct (valid_bounds _ Hvalid) as (Hy & Hm & Hd). cbn in Hy, Hm, Hd, Hyear.
  pose proof (days_in_month_max y m) as Hmax.
  assert (1 ≤ dd ≤ 31) as Hd' by lia. clear Hmax Hd.
  unfold parse, strftime_ymd. cbn [year month day].
  rewrite chars_app, regex_matches_after_year, match_Y_formatted by lia.
  cbv [mbind list_bind]. rewrite app_nil_r.
  destruct (month_cases m Hm) as [->|[->|[->|[->|[->|[->|[->|[->|[->|[->|[->| ->]]]]]]]]]]];
    destruct (day_cases dd Hd') as [->|[->|[->|[->|[->|[->|[->|[->|[->|[->|[->|[->|[->|[->|[->|[->|[->|[->|[->|[->|[->|[->|[->|[->|[->|[->|[->|[->|[->|[->| ->]]]]]]]]]]]]]]]]]]]]]]]]]]]]]];
    match goal with
    | |- context [matches_after_year ?y ?t] =>
      let R := fresh "R" in
      set (R := matches_after_year y t); vm_compute in R; subst R
    end;
    cbv beta iota; rewrite Hvalid; reflexivity.
Qed.

Lemma strftime_then_strptime_witness :
  parse (strftime_ymd (MkDate 2024 2 29)) = Ok (MkDate 2024 2 29).
Proof.
  apply strftime_then_strptime; [reflexivity|cbn; lia].
Defined.

Example strftime_pads :
  strftime_ymd (MkDate 2024 3 5) = "2024-03-05".
Proof. reflexivity. Qed.

End PathFacts.

(** ** More on the methods of the client *)

Module RunFacts.
Import Py Date DatabaseHandler PestCareClient Spec PoolSpec RunSpec Sample.
Import Helpers StoreNotions RunNotions.
Import DatabaseHandlerFacts SanitizeFacts PipelineFacts StoreFacts.
Local Open Scope Z_scope.

Lemma fetch_api_data_frame_db (env : environment) (endpoint : string)
    (params : value) (method : http_method) (json_payload : value)
    (s : state) :
  ∃ r, _fetch_api_data env endpoint params method json_payload s
       = (r, snd (_fetch_api_data env endpoint params method json_payload s))
       ∧ st_db (snd (_fetch_api_data env endpoint params method
                       json_payload s)) = st_db s.
Proof.
  eexists. split; [apply surjective_pairing|].
  destruct method; [| |done];
    cbv [_fetch_api_data try_except mbind M_bind mret M_ret gets emit lift];
    destruct (http_json env (st_trace s) _ endpoint _) as [data|e];
    [destruct (as_dict data) as [d|e]; [|destruct e]|destruct e
    |destruct (as_dict data) as [d|e]; [|destruct e]|destruct e]; done.
Qed.

(** X14. [_fetch_api_data] makes at most one request and changes
    nothing else: the store, the browser handle and the login are as
    before. A transport error and an undecodable answer never leave it
    as an exception; a method other than GET or POST makes no
    request. *)
Theorem fetch_api_data_frame (env : environment) (endpoint : string)
    (params : value) (method : http_method) (json_payload : value)
    (s : state) :
  ∃ r evs,
    _fetch_api_data env endpoint params method json_payload s
    = (r, with_trace (st_trace s ++ evs) s)
    ∧ (evs = []
       ∨ (method ≠ OtherMethod ∧ ∃ sent, evs = [EvRequest method endpoint sent]))
    ∧ r ≠ Raise RequestException
    ∧ r ≠ Raise ValueError.
Proof.
  destruct method.
  3:{ exists (Ok VNone), []. rewrite app_nil_r, with_trace_same.
      repeat split; auto; done. }
  all: cbv [_fetch_api_data try_except mbind M_bind mret M_ret gets emit lift];
    destruct (http_json env (st_trace s) _ endpoint _) as [data|e];
    [destruct (as_dict data) as [d|e]; [|destruct e]|destruct e];
    eexists _, [_]; (split; [reflexivity|]);
    (split; [right; split; [done|eauto]|]); split; done.
Qed.

(** X15. [_get_browser] never raises and never touches the store. A
    browser that is held and connected is handed back as it is, with
    no event at all; otherwise the browser is started at most once in
    the call. When the call hands back a browser, the client holds
    one. *)
Theorem get_browser_outcome (env : environment) (s : state) :
  ∃ b s' evs,
    _get_browser env s = (Ok b, s')
    ∧ st_trace s' = (st_trace s ++ evs)%list
    ∧ st_db s' = st_db s
    ∧ (b = false ∨ st_browser s' = true)
    ∧ ((st_browser s && browser_connected env (st_trace s) = true
        ∧ b = true ∧ evs = [])
       ∨ (st_browser s && browser_connected env (st_trace s) = false
          ∧ (launches evs ≤ 1)%nat
          ∧ Forall (λ e, is_document_event e = false) evs)).
Proof.
  cbv [_get_browser _find_chrome_executable log_callback
       mbind M_bind mret M_ret gets emit lift].
  destruct (st_browser s) eqn:Hheld;
    [destruct (browser_connected env (st_trace s)) eqn:Hconn|];
    cbn [negb orb andb].
  { exists true, s, []. rewrite app_nil_r.
    split; [by rewrite Hheld|]. repeat split; auto. }
  all: repeat (cbn [st_trace st_db st_browser st_chrome_path
                    with_trace with_browser];
      match goal with
      | |- context [if ?c then _ else _] => destruct c
      | |- context [match ?o with Ok _ => _ | Raise _ => _ end] => destruct o
      | |- context [match ?o with Some _ => _ | None => _ end] => destruct o
      end).
  all: cbn [st_trace st_db st_browser st_chrome_path with_trace with_browser];
    eexists _, _, _; (split; [reflexivity|]);
    cbn [st_trace st_db st_browser with_trace with_browser];
    rewrite <- ?app_assoc; cbn [app];
    (split; [reflexivity|]); (split; [reflexivity|]);
    (split; [auto|]); right;
    (split; [reflexivity|]); split; [cbn; lia|repeat constructor].
Qed.

(** X16. When the client list cannot be had (the request fails, or
    the answer is empty), the run stops there: it logs the warning and
    the abort line and returns; the browser is not started, no contract
    is asked for and the store is as it was. *)
Theorem run_aborts_without_clients (env : environment) (max_workers : Z)
    (output_folder start_date end_date : string) (selected_tech_ids : value)
    (download_pdfs download_images : bool)
    (token : string) (account : dict) (answer : value) (s s1 : state)
    (Hlogin : st_auth_token s = Some token)
    (Haccount : st_account_info s = VDict account)
    (Hfetch : _fetch_api_data env "/web/api/client/no-paging"
                (VDict [("branch_id", get "employee_branch_id" account)])
                GET VNone s = (Ok answer, s1))
    (Hnone : truthy answer = false) :
  fetch_and_download_all_data env max_workers output_folder start_date
    end_date selected_tech_ids download_pdfs download_images s
  = (Ok tt,
     with_trace
       (st_trace s1
        ++ [EvLog "Warning: Could not fetch or sync client list.";
            EvLog "Aborting sync: Failed to get client list."])
       s1)
  ∧ st_db s1 = st_db s.
Proof.
  split.
  - unfold fetch_and_download_all_data, _sync_clients.
    rewrite !bind_run. cbn [gets]. rewrite Hlogin.
    rewrite !bind_run. cbn [gets lift]. rewrite Haccount. cbn [as_dict].
    rewrite bind_run. cbn [lift]. rewrite bind_run, Hfetch, Hnone.
    cbv [mbind M_bind mret M_ret log_callback emit].
    cbn [st_trace with_trace st_db st_browser st_chrome_path st_auth_token
         st_account_info].
    by rewrite <- app_assoc.
  - destruct (fetch_api_data_frame_db env "/web/api/client/no-paging"
                (VDict [("branch_id", get "employee_branch_id" account)])
                GET VNone s) as [r [_ Hdb]].
    by rewrite Hfetch in Hdb.
Qed.

Lemma run_aborts_without_clients_witness :
  fetch_and_download_all_data offline_env 4 "out" "2024-03-01" "2024-03-31"
    (VList [VInt 9]) true true (logged_in fresh)
  = (Ok tt,
     with_trace
       (st_trace (with_trace
                    [EvRequest GET "/web/api/client/no-paging"
                       (VDict [("branch_id", VInt 3)])]
                    (logged_in fresh))
        ++ [EvLog "Warning: Could not fetch or sync client list.";
            EvLog "Aborting sync: Failed to get client list."])
       (with_trace
          [EvRequest GET "/web/api/client/no-paging"
             (VDict [("branch_id", VInt 3)])]
          (logged_in fresh)))
  ∧ st_db (with_trace
             [EvRequest GET "/web/api/client/no-paging"
                (VDict [("branch_id", VInt 3)])]
             (logged_in fresh))
    = st_db (logged_in fresh).
Proof.
  apply (run_aborts_without_clients offline_env 4 "out" "2024-03-01"
           "2024-03-31" (VList [VInt 9]) true true "token"
           [("employee_branch_id", VInt 3)] VNone);
    reflexivity.
Defined.

(** *** The clients of a run *)






Example clients_dict_keeps_last :
  clients_dict [ClientRecord 1 "Acme"; ClientRecord 2 "Bima";
                ClientRecord 1 "Acme Tbk"]
  = [(1, ClientRecord 1 "Acme Tbk"); (2, ClientRecord 2 "Bima")].
Proof. reflexivity. Qed.

(** *** The image scan and the pool *)

Lemma scan_file_passed_over (env : environment)
    (schedule_id technician_name : value) (client_name : string)
    (files : list file_info) (file_data : value) (s : state) :
  passed_over env schedule_id technician_name client_name (st_db s) file_data →
  scan_file env schedule_id technician_name client_name files file_data s
  = (Ok files, s).
Proof.
  intros (fd & -> & Hcase). unfold scan_file.
  rewrite bind_run. cbn [lift as_dict].
  destruct Hcase as [Hblank|(url & category & Hurl & Hcat & Hseen)].
  - by rewrite Hblank.
  - destruct (negb (truthy (get "filename" fd))
              || negb (truthy (get "id" fd))); [done|].
    rewrite Hurl. rewrite bind_run. cbn [lift].
    rewrite bind_run. cbn [lift]. rewrite Hcat.
    rewrite bind_run. unfold db_is_already_downloaded. cbn [gets].
    by rewrite Hseen.
Qed.

(** X18. A manifest whose entries are all in the history already (or
    lack their url or id) enqueues nothing: the scan over it hands the
    list of files back as it was and leaves the state as it was, so no
    such image is asked for or written again. *)
Theorem scan_passes_over_recorded (env : environment)
    (schedule_id technician_name : value) (client_name : string)
    (file_datas : list value) (files : list file_info) (s : state)
    (Hall : Forall (passed_over env schedule_id technician_name client_name
                      (st_db s)) file_datas) :
  for_each (scan_file env schedule_id technician_name client_name)
           file_datas files s
  = (Ok files, s).
Proof.
  induction Hall as [|file_data file_datas Hone _ IH]; [done|].
  cbn [for_each]. rewrite bind_run.
  by rewrite scan_file_passed_over.
Qed.

Lemma scan_passes_over_recorded_witness :
  for_each (scan_file (sample_env true Streamed) (VInt 77) (VStr "Budi S.")
              "Acme, Inc.")
           [VDict [("id", VInt 5); ("filename", VStr "https://files/y.png")];
            VDict [("id", VInt 6)]]
           [] (logged_in downloaded_once)
  = (Ok [], logged_in downloaded_once).
Proof.
  apply scan_passes_over_recorded.
  repeat constructor.
  - eexists. split; [reflexivity|]. right.
    exists "https://files/y.png", "Budi S/Acme Inc/Foto".
    repeat split; reflexivity.
  - eexists. split; [reflexivity|]. left. reflexivity.
Defined.




(** *** Rendering one report *)

(** X20. For a report that is not in the history yet, whatever the
    composer, the browser or the PDF writing do, the turn of the loop
    returns and does not raise: either the PDF was written and the
    turn counts it and records its key, so that the key is found from
    then on, or something failed, the count and the store are as
    before and the last line logged is the FAILED line of that
    schedule. *)
Theorem pdf_step_never_raises_rendering (env : environment)
    (client_address branch_name : value) (client_name output_folder : string)
    (count : Z) (report : dict) (category : string) (uploaded : value)
    (s s1 : state)
    (Hid : truthy (get "schedule_id" report) = true)
    (Hmanifest :
       _fetch_api_data env "/web/api/schedule/file-uploaded" VNone POST
         (VDict [("schedule_id", get "schedule_id" report);
                 ("type", VStr "sts")]) s = (Ok uploaded, s1))
    (Hcategory :
       category_at_pdf
         (get_default "employee_name" (VStr "Unknown_Technician") report)
         client_name = Ok category)
    (Hnew :
       is_already_downloaded
         (pdf_filename env client_name
            (get_default "date_work" (VStr "nodate") report)
            (get "schedule_id" report))
         category (st_db s) = false)
    (Hdirs : ∀ t, makedirs env t (os_path_join output_folder [category])
                  = Ok tt) :
  ∃ c s',
    pdf_step env client_address branch_name client_name output_folder
             count (VDict report) s = (Ok c, s')
    ∧ ((c = count + 1
        ∧ is_already_downloaded
            (pdf_filename env client_name
               (get_default "date_work" (VStr "nodate") report)
               (get "schedule_id" report))
            category (st_db s') = true)
       ∨ (c = count
          ∧ st_db s' = st_db s
          ∧ ∃ e, last (st_trace s')
                 = Some (EvLog
                     ("      -> FAILED (PDF): Exception during PDF generation for schedule "
                      ++ py_str env (get "schedule_id" report)
                      ++ ". Reason: " ++ exn_text e)))).
Proof.
  assert (st_db s1 = st_db s) as Hdb.
  { destruct (fetch_api_data_frame_db env "/web/api/schedule/file-uploaded"
                VNone POST
                (VDict [("schedule_id", get "schedule_id" report);
                        ("type", VStr "sts")]) s) as [r [_ H]].
    by rewrite Hmanifest in H. }
  unfold pdf_step. rewrite bind_run. cbn [lift as_dict].
  destruct (pdf_fields report (or_else uploaded (VList []))) as (Hsid & Hname & Hdate).
  rewrite Hsid, Hname, Hid. cbn [negb].
  rewrite bind_run, Hmanifest, Hdate.
  rewrite bind_run. cbn [lift]. rewrite Hcategory.
  rewrite bind_run. unfold db_is_already_downloaded. cbn [gets].
  rewrite Hdb, Hnew.
  cbv [render os_makedirs db_add_download_record try_except
       mbind M_bind mret M_ret gets emit lift log_callback].
  cbn [st_trace with_trace]. rewrite Hdirs.
  repeat (cbn [st_trace st_db st_browser with_trace with_db];
    match goal with
    | |- context [match ?o with Ok _ => _ | Raise _ => _ end] =>
      lazymatch o with
      | add_download_record _ _ _ _ _ => fail
      | _ => destruct o
      end
    | |- context [if st_browser ?x then _ else _] => destruct (st_browser x)
    end).
  all: cbn [st_trace st_db st_browser with_trace with_db].
  all: try (eexists _, _; split; [reflexivity|]; right;
            cbn [st_trace st_db with_trace];
            split; [reflexivity|]; split; [by rewrite ?Hdb|];
            eexists; by rewrite last_snoc).
  match goal with
  | |- context [add_download_record ?n ?f ?c ?u ?d] =>
    destruct (add_download_record_found n f c u d) as (d' & Hadd & Hfound & _);
    rewrite Hadd
  end.
  eexists _, _. split; [reflexivity|]. left. split; [done|].
  cbn [st_db with_trace with_db]. exact Hfound.
Qed.

Lemma pdf_step_never_raises_rendering_witness :
  ∃ c s',
    pdf_step (sample_env true Streamed) (VStr "Jl. Ijen 1") (VStr "Malang")
             "Acme, Inc." "out" 0 (VDict sample_report) (logged_in fresh)
    = (Ok c, s')
    ∧ ((c = 0 + 1
        ∧ is_already_downloaded
            (pdf_filename (sample_env true Streamed) "Acme, Inc."
               (get_default "date_work" (VStr "nodate") sample_report)
               (get "schedule_id" sample_report))
            "Budi S/Acme Inc/STS Reports" (st_db s') = true)
       ∨ (c = 0
          ∧ st_db s' = st_db (logged_in fresh)
          ∧ ∃ e, last (st_trace s')
                 = Some (EvLog
                     ("      -> FAILED (PDF): Exception during PDF generation for schedule "
                      ++ py_str (sample_env true Streamed)
                           (get "schedule_id" sample_report)
                      ++ ". Reason: " ++ exn_text e)))).
Proof.
  eapply (pdf_step_never_raises_rendering (sample_env true Streamed)).
  - reflexivity.
  - reflexivity.
  - reflexivity.
  - reflexivity.
  - reflexivity.
Defined.

(** The browser handle is missing in the sample world until a browser
    was started: the composer is called, the page is not, and the
    report is logged as failed. *)
Example pdf_step_without_browser :
  fst (pdf_step (sample_env true Streamed) (VStr "Jl. Ijen 1") (VStr "Malang")
         "Acme, Inc." "out" 0 (VDict sample_report) (logged_in fresh))
  = Ok 0.
Proof. reflexivity. Qed.

(** *** The history over a whole run *)

Lemma grown_refl (d : db) : grown d d.
Proof. split; [exists []; by rewrite app_nil_r|done]. Qed.

Lemma grown_trans (d1 d2 d3 : db) : grown d1 d2 → grown d2 d3 → grown d1 d3.
Proof.
  intros [[r1 H1] U1] [[r2 H2] U2]. split; [|auto].
  exists (r1 ++ r2)%list. by rewrite H2, H1, app_assoc.
Qed.

Lemma grown_same_history (d d' : db) :
  download_history d' = download_history d → grown d d'.
Proof.
  intros H. split; [exists []; by rewrite app_nil_r|].
  intros Hu f c. specialize (Hu f c). unfold records_for in *.
  by rewrite H.
Qed.

Lemma grows_same {A} (m : M A) :
  (∀ s, download_history (st_db (snd (m s))) = download_history (st_db s)) →
  grows m.
Proof. intros H s. by apply grown_same_history. Qed.

Lemma grows_ret {A} (a : A) : grows (mret a).
Proof. by apply grows_same. Qed.

Lemma grows_lift {A} (r : result A) : grows (lift r).
Proof. by apply grows_same. Qed.

Lemma grows_gets {A} (f : state → A) : grows (gets f).
Proof. by apply grows_same. Qed.

Lemma grows_emit (e : event) : grows (emit e).
Proof. by apply grows_same. Qed.

Lemma grows_bind {A B} (m : M A) (f : A → M B) :
  grows m → (∀ a, grows (f a)) → grows (m ≫= f).
Proof.
  intros Hm Hf s. rewrite bind_run. specialize (Hm s).
  destruct (m s) as [[a|e] s1]; cbn [snd] in *; [|done].
  eapply grown_trans; [exact Hm|apply Hf].
Qed.

Lemma grows_try {A} (body : M A) (handler : exn → option (M A)) :
  grows body → (∀ e h, handler e = Some h → grows h) →
  grows (try_except body handler).
Proof.
  intros Hb Hh s. unfold try_except. specialize (Hb s).
  destruct (body s) as [[a|e] s1]; cbn [snd] in *; [done|].
  destruct (handler e) as [h|] eqn:E; [|done].
  eapply grown_trans; [exact Hb|by eapply Hh].
Qed.

Lemma grows_for_each {A B} (body : B → A → M B) (xs : list A) :
  (∀ acc x, grows (body acc x)) → ∀ acc, grows (for_each body xs acc).
Proof.
  intros Hbody. induction xs as [|x xs IH]; intros acc; cbn [for_each].
  - apply grows_ret.
  - apply grows_bind; [apply Hbody|apply IH].
Qed.

Lemma grows_add_record (env : environment) (f c u : string) :
  grows (db_add_download_record env f c u).
Proof.
  intros s. unfold db_add_download_record.
  destruct (add_download_record _ _ _ _ _) as [d'|e] eqn:Hadd;
    cbn [snd st_db with_db]; [|apply grown_refl].
  split; [|intros Hu; by eapply add_download_record_unique_keys].
  destruct (add_download_record_cases _ _ _ _ _ _ Hadd)
    as [[_ ->]|[_ Hins]]; [exists []; by rewrite app_nil_r|].
  unfold insert_download_history in Hins.
  destruct (existsb _ _); [done|]. injection Hins as <-. cbn. eauto.
Qed.

Lemma grows_sync (records : list client_record) :
  grows (λ s, (Ok tt, with_db (sync_clients records (st_db s)) s)).
Proof. apply grows_same. intros s. by destruct records. Qed.

Lemma grows_browser (b : bool) :
  grows (λ s, (Ok tt, with_browser b s)).
Proof. by apply grows_same. Qed.

(** Splits the method in the goal along its binds and branches. *)
Ltac grows_step :=
  lazymatch goal with
  | |- grows (mret _) => apply grows_ret
  | |- grows (lift _) => apply grows_lift
  | |- grows (gets _) => apply grows_gets
  | |- grows (log_callback _) => apply grows_emit
  | |- grows (emit _) => apply grows_emit
  | |- grows (db_add_download_record _ _ _ _) => apply grows_add_record
  | |- grows (db_is_already_downloaded _ _) => apply grows_gets
  | |- grows (λ s, (Ok tt, with_db (sync_clients _ _) s)) => apply grows_sync
  | |- grows (λ s, (Ok tt, with_browser _ s)) => apply grows_browser
  | |- grows (_ ≫= _) => apply grows_bind; [|intros ?]
  | |- grows (try_except _ _) =>
      apply grows_try; [|intros [] ? ?; simplify_eq]
  | |- grows (for_each _ _ _) => apply grows_for_each; intros ? ?
  | |- grows (if ?b then _ else _) => destruct b
  | |- grows (match ?x with _ => _ end) => destruct x
  | |- grows (let _ := _ in _) => cbv zeta
  end.

Section Grows.
Variables (env : environment) (max_workers : Z)
          (output_folder start_date end_date : string)
          (selected_tech_ids : value).

Lemma grows_fetch endpoint params method payload :
  grows (_fetch_api_data env endpoint params method payload).
Proof. unfold _fetch_api_data. repeat grows_step. Qed.

Lemma grows_images reports client_name :
  grows (_process_images_for_reports env reports client_name output_folder
           max_workers).
Proof.
  unfold _process_images_for_reports, run_pool, collect,
    _download_image_worker, os_makedirs, scan_report, scan_file.
  repeat first [apply grows_fetch | grows_step].
Qed.

Lemma grows_pdfs reports detail client_name :
  grows (_process_pdfs_for_reports env reports detail client_name
           output_folder).
Proof.
  unfold _process_pdfs_for_reports, pdf_step, render, os_makedirs.
  repeat first [apply grows_fetch | grows_step].
Qed.

Lemma grows_get_browser : grows (_get_browser env).
Proof.
  unfold _get_browser, _find_chrome_executable. repeat grows_step.
Qed.

Lemma grows_sync_clients : grows (_sync_clients env).
Proof.
  unfold _sync_clients. repeat first [apply grows_fetch | grows_step].
Qed.

Lemma grows_sync_loop clients download_pdfs download_images :
  grows (sync_loop env max_workers output_folder start_date end_date
           selected_tech_ids clients download_pdfs download_images).
Proof.
  unfold sync_loop, process_client, process_contract.
  repeat first [apply grows_fetch | apply grows_images | apply grows_pdfs
               | grows_step].
Qed.

(** X21. A run never takes anything out of the history: whatever the
    network, the disk and the browser do, and also when the run ends
    in an exception, the history after it is the history before it
    with rows appended, and if no key was stored twice before, none is
    after. *)
Theorem run_only_appends_to_history (download_pdfs download_images : bool)
    (s : state) :
  grown (st_db s)
        (st_db (snd (fetch_and_download_all_data env max_workers output_folder
                       start_date end_date selected_tech_ids
                       download_pdfs download_images s))).
Proof.
  revert s. change (grows (fetch_and_download_all_data env max_workers
    output_folder start_date end_date selected_tech_ids
    download_pdfs download_images)).
  unfold fetch_and_download_all_data, run_with_clients, summary.
  repeat first [apply grows_sync_clients | apply grows_get_browser
               | apply grows_sync_loop | grows_step].
Qed.

End Grows.

End RunFacts.

(** ** The login *)

Module LoginFacts.
Import Py DatabaseHandler PestCareClient Sample Login RunNotions.
Import PipelineFacts RunFacts.
Local Open Scope Z_scope.

Lemma fetch_not_request_exception (env : environment) (endpoint : string)
    (params : value) (method : http_method) (json_payload : value)
    (s : state) :
  fst (_fetch_api_data env endpoint params method json_payload s)
  ≠ Raise RequestException
  ∧ st_db (snd (_fetch_api_data env endpoint params method json_payload s))
    = st_db s
  ∧ st_auth_token
      (snd (_fetch_api_data env endpoint params method json_payload s))
    = st_auth_token s
  ∧ st_account_info
      (snd (_fetch_api_data env endpoint params method json_payload s))
    = st_account_info s.
Proof.
  destruct method; [| |done];
    cbv [_fetch_api_data try_except mbind M_bind mret M_ret gets emit lift];
    destruct (http_json env (st_trace s) _ endpoint _) as [data|e];
    [destruct (as_dict data) as [d|e]; [|destruct e]|destruct e
    |destruct (as_dict data) as [d|e]; [|destruct e]|destruct e]; done.
Qed.

Lemma is_200_code (v : value) : is_200 v = true → v = VInt 200.
Proof.
  destruct v; try done. cbn. intros H%Z.eqb_eq. by subst.
Qed.

(** What a login call can come to: refused, with the state as it was
    but for the request; granted, with the token and the account of
    the answer stored; or an exception other than a transport error. *)
Lemma login_cases (env : environment) (username password : string)
    (s : state) :
  let payload :=
    VDict [("username", VStr username); ("password", VStr password)] in
  let asked :=
    with_trace (st_trace s ++ [EvRequest POST "/web/api/auth/login" payload])
               s in
  login_and_get_technicians env username password s
  = (Ok (false, VNone), asked)
  ∨ (∃ d body token techs s',
       login_and_get_technicians env username password s
       = (Ok (true, techs), s')
       ∧ http_json env (st_trace s) POST "/web/api/auth/login" payload
         = Ok (VDict d)
       ∧ get "code" d = VInt 200
       ∧ lookup_key "body" d = Some (VDict body)
       ∧ lookup_key "accessToken" body = Some token
       ∧ st_auth_token s' = token_text env token
       ∧ st_account_info s' = get "account" body
       ∧ st_db s' = st_db s)
  ∨ (∃ e s', login_and_get_technicians env username password s
             = (Raise e, s')
             ∧ e ≠ RequestException).
Proof.
  intros payload asked.
  cbv [login_and_get_technicians try_except mbind M_bind mret M_ret
       gets emit lift].
  fold payload. fold asked.
  destruct (http_json env (st_trace s) POST "/web/api/auth/login" payload)
    as [data|e] eqn:Hhttp.
  2:{ destruct e; first [by left | right; right; eexists _, _; by split]. }
  destruct data as [| | | | |d];
    try (right; right; eexists _, _; by split).
  cbn [as_dict].
  destruct (is_200 (get "code" d)) eqn:Hcode; [|by left].
  apply is_200_code in Hcode.
  unfold get_default, subscript.
  destruct (lookup_key "body" d) as [body|] eqn:Hbody; [|by left].
  destruct body as [| | |text|l|body]; cbn [py_in];
    try (right; right; eexists _, _; by split).
  { destruct (contains "accessToken" text); [|by left].
    right; right; eexists _, _; by split. }
  { destruct (existsb _ l); [|by left].
    right; right; eexists _, _; by split. }
  destruct (lookup_key "accessToken" body) as [token|] eqn:Htoken; [|by left].
  cbn [as_dict].
  destruct (as_dict (get "account" body)) as [info|e] eqn:Hinfo.
  2:{ assert (e = AttributeError) as ->
        by (destruct (get "account" body); cbn in Hinfo; congruence).
      right; right. eexists _, _. by split. }
  match goal with
  | |- context [_fetch_api_data ?e ?ep ?pa ?me ?pl ?st] =>
    destruct (fetch_not_request_exception e ep pa me pl st)
      as (Hne & Hdb & Htok & Hacc);
    destruct (_fetch_api_data e ep pa me pl st) as [[techs|e'] s'] eqn:Hfetch
  end; cbn [fst snd] in *.
  - right; left. exists d, body, token, techs, s'.
    repeat split; try done.
  - right; right. destruct e'; try done; eexists _, _; by split.
Qed.

(** X22. A login that is refused (the call returns [False]) returns no
    technicians and leaves the client as it was: the token and the
    account it held, the store and the browser are untouched, and the
    one thing that happened is the login request. *)
Theorem refused_login_changes_nothing (env : environment)
    (username password : string) (techs : value) (s s' : state)
    (Hrefused : login_and_get_technicians env username password s
                = (Ok (false, techs), s')) :
  techs = VNone
  ∧ s' = with_trace
           (st_trace s
            ++ [EvRequest POST "/web/api/auth/login"
                  (VDict [("username", VStr username);
                          ("password", VStr password)])])
           s.
Proof.
  destruct (login_cases env username password s)
    as [H|[(d & body & token & t & s1 & H & _)|(e & s1 & H & _)]];
    rewrite H in Hrefused; by simplify_eq.
Qed.

Lemma refused_login_changes_nothing_witness :
  VNone = VNone
  ∧ with_trace [EvRequest POST "/web/api/auth/login"
                  (VDict [("username", VStr "adm"); ("password", VStr "x")])]
               logged_out
    = with_trace
        (st_trace logged_out
         ++ [EvRequest POST "/web/api/auth/login"
               (VDict [("username", VStr "adm"); ("password", VStr "x")])])
        logged_out.
Proof.
  apply (refused_login_changes_nothing (sample_env true Streamed) "adm" "x").
  reflexivity.
Defined.

(** X23. A login that is granted (the call returns [True]) had an
    answer with code 200 whose body is an object with an accessToken;
    afterwards the client holds that token and the account of the
    answer, so it counts as logged in unless the token was null, and
    the store is untouched. *)
Theorem granted_login_stores_token (env : environment)
    (username password : string) (techs : value) (s s' : state)
    (Hgranted : login_and_get_technicians env username password s
                = (Ok (true, techs), s')) :
  ∃ d body token,
    http_json env (st_trace s) POST "/web/api/auth/login"
      (VDict [("username", VStr username); ("password", VStr password)])
    = Ok (VDict d)
    ∧ get "code" d = VInt 200
    ∧ lookup_key "body" d = Some (VDict body)
    ∧ lookup_key "accessToken" body = Some token
    ∧ st_auth_token s' = token_text env token
    ∧ st_account_info s' = get "account" body
    ∧ is_logged_in s' = negb (is_none token)
    ∧ st_db s' = st_db s.
Proof.
  destruct (login_cases env username password s)
    as [H|[(d & body & token & t & s1 & H & Hh & Hc & Hb & Ht & Hs & Ha & Hd)
          |(e & s1 & H & _)]];
    rewrite H in Hgranted; simplify_eq.
  exists d, body, token. repeat split; try done.
  unfold is_logged_in. rewrite Hs. by destruct token.
Qed.

Lemma granted_login_stores_token_witness :
  ∃ d body token,
    http_json granting_env (st_trace logged_out) POST "/web/api/auth/login"
      (VDict [("username", VStr "adm"); ("password", VStr "pw")])
    = Ok (VDict d)
    ∧ get "code" d = VInt 200
    ∧ lookup_key "body" d = Some (VDict body)
    ∧ lookup_key "accessToken" body = Some token
    ∧ st_auth_token
        (snd (login_and_get_technicians granting_env "adm" "pw" logged_out))
      = token_text granting_env token
    ∧ st_account_info
        (snd (login_and_get_technicians granting_env "adm" "pw" logged_out))
      = get "account" body
    ∧ is_logged_in
        (snd (login_and_get_technicians granting_env "adm" "pw" logged_out))
      = negb (is_none token)
    ∧ st_db (snd (login_and_get_technicians granting_env "adm" "pw"
                    logged_out))
      = st_db logged_out.
Proof.
  eapply (granted_login_stores_token granting_env "adm" "pw").
  vm_compute. reflexivity.
Defined.

(** X24. A transport error never escapes a login: the call returns or
    raises something else, so that a network failure shows as a
    refused login. *)
Theorem login_never_raises_transport_error (env : environment)
    (username password : string) (s : state) :
  fst (login_and_get_technicians env username password s)
  ≠ Raise RequestException.
Proof.
  destruct (login_cases env username password s)
    as [H|[(d & body & token & t & s1 & H & _)|(e & s1 & H & He)]];
    rewrite H; cbn [fst]; congruence.
Qed.

End LoginFacts.

(** ** The image cache of the composer *)

Module ReportGeneratorFacts.
Import Py Login ReportGenerator.

Example image_fetched_once :
  get_image_as_base64 (sample_images true) (VStr "https://files/sig.jpg")
                      (ImageState ∅ [])
  = (Ok "data:image/jpeg;base64,b64(JFIF)",
     ImageState {[ "https://files/sig.jpg" := "data:image/jpeg;base64,b64(JFIF)" ]}
                [ImgGet "https://files/sig.jpg"]).
Proof. reflexivity. Qed.

Example local_logo :
  fst (get_image_as_base64 (sample_images true)
         (VStr "images/Logo MaxxGuard-1f60aee0.png") (ImageState ∅ []))
  = Ok "data:image/png;base64,b64(PNG)".
Proof. reflexivity. Qed.

Example missing_logo :
  get_image_as_base64 (sample_images true) (VStr "images/none.png")
                      (ImageState ∅ [])
  = (Ok PLACEHOLDER_TRANSPARENT_PIXEL,
     ImageState ∅ [ImgPrint "Warning: Local image not found at images/none.png"]).
Proof. reflexivity. Qed.

(** X25. [get_image_as_base64] does not raise on a path or url that is
    a string. Either it answers with the placeholder and leaves the
    cache as it was, so that the image is tried again the next time;
    or it answers with a data URI that is in the cache under the path
    from then on, and every later call for the same path, whatever the
    network and the disk do by then, gives the same URI without a
    request and without touching the state. *)
Theorem image_cached_after_success (w : image_world) (path : string)
    (s : image_state) :
  ∃ uri s',
    get_image_as_base64 w (VStr path) s = (Ok uri, s')
    ∧ ((uri = PLACEHOLDER_TRANSPARENT_PIXEL
        ∧ IMAGE_CACHE s' = IMAGE_CACHE s)
       ∨ (IMAGE_CACHE s' !! path = Some uri
          ∧ ∀ w', get_image_as_base64 w' (VStr path) s' = (Ok uri, s'))).
Proof.
  assert (∀ w' uri s', path ≠ "" → IMAGE_CACHE s' !! path = Some uri →
            get_image_as_base64 w' (VStr path) s' = (Ok uri, s')) as Hhit.
  { intros w' uri s' Hne Hc. unfold get_image_as_base64. cbn [truthy].
    rewrite bool_decide_eq_false_2 by done. cbn [negb]. by rewrite Hc. }
  unfold get_image_as_base64 at 1. cbn [truthy].
  destruct (decide (path = "")) as [->|Hne].
  { eexists _, _. split; [reflexivity|]. by left. }
  rewrite bool_decide_eq_false_2 by done. cbn [negb].
  destruct (IMAGE_CACHE s !! path) as [uri|] eqn:Hcache.
  { eexists _, _. split; [reflexivity|]. right. split; [done|].
    intros w'. by apply Hhit. }
  unfold store, answer_placeholder.
  destruct (String.prefix "http" path).
  - destruct (http_image w (image_trace s) path);
      eexists _, _; (split; [reflexivity|]); [by left|].
    right. cbn [IMAGE_CACHE]. split; [apply lookup_insert_eq|].
    intros w'. apply Hhit; [done|]. apply lookup_insert_eq.
  - destruct (file_exists w (image_trace s) path); cbn [negb];
      [destruct (file_content w (image_trace s) path)|];
      eexists _, _; (split; [reflexivity|]); try (by left).
    right. cbn [IMAGE_CACHE]. split; [apply lookup_insert_eq|].
    intros w'. apply Hhit; [done|]. apply lookup_insert_eq.
Qed.

(** X26. A call for one path leaves what the cache holds for every
    other path as it is, and never removes an entry. *)
Theorem image_cache_frame (w : image_world) (path_or_url : value)
    (s : image_state) (other : string) (uri : string)
    (Hcached : IMAGE_CACHE s !! other = Some uri)
    (Hother : path_or_url ≠ VStr other) :
  IMAGE_CACHE (snd (get_image_as_base64 w path_or_url s)) !! other = Some uri.
Proof.
  unfold get_image_as_base64, store, answer_placeholder.
  destruct (negb (truthy path_or_url)); [done|].
  destruct path_or_url as [| | |p| |]; try done.
  destruct (IMAGE_CACHE s !! p); [done|].
  assert (p ≠ other) as Hne by congruence.
  destruct (String.prefix "http" p).
  - destruct (http_image w (image_trace s) p); cbn [snd IMAGE_CACHE];
      [done|by rewrite lookup_insert_ne].
  - destruct (file_exists w (image_trace s) p); cbn [negb];
      [destruct (file_content w (image_trace s) p)|]; cbn [snd IMAGE_CACHE];
      try done; by rewrite lookup_insert_ne.
Qed.

Lemma image_cache_frame_witness :
  IMAGE_CACHE
    (snd (get_image_as_base64 (sample_images true)
            (VStr "https://files/sig.jpg")
            (ImageState {[ "images/a.png" := "data:image/png;base64,QQ==" ]} [])))
  !! "images/a.png"
  = Some "data:image/png;base64,QQ==".
Proof.
  apply image_cache_frame; [reflexivity|discriminate].
Defined.

End ReportGeneratorFacts.
